(** * Single-channel LoRa gateway: the Dragino GPS HAT driver

    A shallow embedding of [home/pi/LoRa/dragino_gps_hat.cpp]: the
    register driver of the SX1272/SX1276 transceiver, the configuration
    sequence, the packet receiver and the two JSON encoders, followed by
    the properties of the written specification that concern them.

    Integers are modelled as [Z] with every C conversion written out,
    bytes and characters as [Z] in [0, 255], arrays as lists of their
    declared length, and an out-of-bounds store as an undefined run
    ([None]).  What the program gets from outside (the SPI bus, the DIO0
    pin, [rand], the clock, uninitialised stack memory) is read from an
    environment of answer sequences; what it does to the outside is
    recorded in a trace. *)

From Stdlib Require Import String Ascii.
From Stdlib Require Import ZArith List Lia Bool QArith Qabs.
Import ListNotations.
Open Scope string_scope.
Open Scope list_scope.
Open Scope Z_scope.

(** ** C integer conversions *)

Definition to_uint8 (x : Z) : Z := x mod 256.
Definition to_uint32 (x : Z) : Z := x mod 2 ^ 32.
Definition to_uint64 (x : Z) : Z := x mod 2 ^ 64.
(** [size_t] on the 32-bit Raspberry Pi. *)
Definition to_size_t (x : Z) : Z := x mod 2 ^ 32.

(** ** Constants of the source file *)

Definition CHANNEL : Z := 0.
Definition ssPin : Z := 6.
Definition dio0 : Z := 7.
Definition RST : Z := 0.

Definition SF7 : Z := 7.
Definition SF8 : Z := 8.
Definition SF9 : Z := 9.
Definition SF10 : Z := 10.
Definition SF11 : Z := 11.
Definition SF12 : Z := 12.

Definition REG_FIFO : Z := 0x00.
Definition REG_FIFO_ADDR_PTR : Z := 0x0D.
Definition REG_FIFO_RX_BASE_AD : Z := 0x0F.
Definition REG_RX_NB_BYTES : Z := 0x13.
Definition REG_OPMODE : Z := 0x01.
Definition REG_FIFO_RX_CURRENT_ADDR : Z := 0x10.
Definition REG_IRQ_FLAGS : Z := 0x12.
Definition REG_MODEM_CONFIG : Z := 0x1D.
Definition REG_MODEM_CONFIG2 : Z := 0x1E.
Definition REG_MODEM_CONFIG3 : Z := 0x26.
Definition REG_SYMB_TIMEOUT_LSB : Z := 0x1F.
Definition REG_PKT_SNR_VALUE : Z := 0x19.
Definition REG_PAYLOAD_LENGTH : Z := 0x22.
Definition REG_MAX_PAYLOAD_LENGTH : Z := 0x23.
Definition REG_HOP_PERIOD : Z := 0x24.
Definition REG_VERSION : Z := 0x42.

Definition SX72_MODE_RX_CONTINUOS : Z := 0x85.
Definition SX72_MODE_SLEEP : Z := 0x80.
Definition PAYLOAD_LENGTH : Z := 0x40.

Definition REG_LNA : Z := 0x0C.
Definition LNA_MAX_GAIN : Z := 0x23.

Definition REG_FRF_MSB : Z := 0x06.
Definition REG_FRF_MID : Z := 0x07.
Definition REG_FRF_LSB : Z := 0x08.

Definition PROTOCOL_VERSION : Z := 1.
Definition PKT_PUSH_DATA : Z := 0.

Definition TX_BUFF_SIZE : Z := 2048.
Definition STATUS_SIZE : Z := 1024.

(** Constants of wiringPi.h (the GPIO library the driver is built on). *)
Definition LOW : Z := 0.
Definition HIGH : Z := 1.
Definition INPUT : Z := 0.
Definition OUTPUT : Z := 1.

(** The register names that the source takes from [hope_rfm96.h], a
    header of the repository that is not part of the audited file.  The
    model is parametric in their values. *)
Record hope_rfm96_h := {
  REG_RegModemConfig1 : Z;
  REG_RegModemConfig2 : Z;
  REG_RegPreambleMsb : Z;
  REG_RegPreambleLsb : Z;
  REG_RegModemConfig3 : Z;
  REG_RegPaRamp : Z
}.

(** ** The outside world *)

(** Console output, one constructor per [printf] site. *)
Inductive message :=
| MsgCrcError
| MsgSx1272Detected
| MsgSx1276Detected
| MsgUnrecognized
| MsgUnknownMode (mode : Z)
| MsgPacketRssi (v : Z)
| MsgRssi (v : Z)
| MsgSnr (v : Z)
| MsgLength (v : Z)
| MsgNewline
| MsgDump (r : Z) (c : Z)
| MsgRxpkUpdate (body : list Z)
| MsgStatUpdate (body : list Z).

Inductive event :=
| EvWiringPiSetup
| EvPinMode (pin mode : Z)
| EvSPISetup (chan speed : Z)
| EvDigitalWrite (pin level : Z)
| EvDigitalRead (pin level : Z)
| EvDelay (ms : Z)
| EvSPIDataRW (chan tx0 tx1 rx1 : Z)
| EvPrintf (m : message).

(** The answers of the environment: the second byte clocked in by the
    n-th SPI transfer, the level seen by the n-th [digitalRead], the
    n-th [rand()], the n-th clock reading (seconds and microseconds),
    the text [strftime] leaves for a time, and the bytes an
    uninitialised stack buffer happens to hold. *)
Record env := {
  spi_miso : nat -> Z;
  gpio_level : nat -> Z;
  rand_value : nat -> Z;
  clock_sec : nat -> Z;
  clock_usec : nat -> Z;
  strftime_text : Z -> list Z;
  stack_junk : nat -> Z
}.

(** ** Program state: the file-scope variables, the externs the file
    writes, the function-static status buffer, and the position in each
    answer sequence together with the trace (most recent event first). *)
Record state := mkState {
  is_sx1272 : bool;
  receivedbytes : Z;
  cp_nb_rx_rcv : Z;
  cp_nb_rx_ok : Z;
  cp_up_pkt_fwd : Z;
  transmission_mode : Z;
  sf : Z;
  freq : Z;
  ifr_hwaddr : list Z;
  lora_packet : list Z;
  lora_snr : Z;
  lora_packet_length : Z;
  status_report : list Z;
  spi_n : nat;
  dio_n : nat;
  rand_n : nat;
  clock_n : nat;
  trace : list event
}.

Definition set_is_sx1272 (v : bool) (s : state) : state :=
  mkState v (receivedbytes s) (cp_nb_rx_rcv s) (cp_nb_rx_ok s)
    (cp_up_pkt_fwd s) (transmission_mode s) (sf s) (freq s) (ifr_hwaddr s)
    (lora_packet s) (lora_snr s) (lora_packet_length s) (status_report s)
    (spi_n s) (dio_n s) (rand_n s) (clock_n s) (trace s).

Definition set_receivedbytes (v : Z) (s : state) : state :=
  mkState (is_sx1272 s) v (cp_nb_rx_rcv s) (cp_nb_rx_ok s)
    (cp_up_pkt_fwd s) (transmission_mode s) (sf s) (freq s) (ifr_hwaddr s)
    (lora_packet s) (lora_snr s) (lora_packet_length s) (status_report s)
    (spi_n s) (dio_n s) (rand_n s) (clock_n s) (trace s).

Definition set_cp_nb_rx_rcv (v : Z) (s : state) : state :=
  mkState (is_sx1272 s) (receivedbytes s) v (cp_nb_rx_ok s)
    (cp_up_pkt_fwd s) (transmission_mode s) (sf s) (freq s) (ifr_hwaddr s)
    (lora_packet s) (lora_snr s) (lora_packet_length s) (status_report s)
    (spi_n s) (dio_n s) (rand_n s) (clock_n s) (trace s).

Definition set_cp_nb_rx_ok (v : Z) (s : state) : state :=
  mkState (is_sx1272 s) (receivedbytes s) (cp_nb_rx_rcv s) v
    (cp_up_pkt_fwd s) (transmission_mode s) (sf s) (freq s) (ifr_hwaddr s)
    (lora_packet s) (lora_snr s) (lora_packet_length s) (status_report s)
    (spi_n s) (dio_n s) (rand_n s) (clock_n s) (trace s).

Definition set_cp_up_pkt_fwd (v : Z) (s : state) : state :=
  mkState (is_sx1272 s) (receivedbytes s) (cp_nb_rx_rcv s) (cp_nb_rx_ok s)
    v (transmission_mode s) (sf s) (freq s) (ifr_hwaddr s)
    (lora_packet s) (lora_snr s) (lora_packet_length s) (status_report s)
    (spi_n s) (dio_n s) (rand_n s) (clock_n s) (trace s).

Definition set_transmission_mode (v : Z) (s : state) : state :=
  mkState (is_sx1272 s) (receivedbytes s) (cp_nb_rx_rcv s) (cp_nb_rx_ok s)
    (cp_up_pkt_fwd s) v (sf s) (freq s) (ifr_hwaddr s)
    (lora_packet s) (lora_snr s) (lora_packet_length s) (status_report s)
    (spi_n s) (dio_n s) (rand_n s) (clock_n s) (trace s).

Definition set_lora_packet (v : list Z) (s : state) : state :=
  mkState (is_sx1272 s) (receivedbytes s) (cp_nb_rx_rcv s) (cp_nb_rx_ok s)
    (cp_up_pkt_fwd s) (transmission_mode s) (sf s) (freq s) (ifr_hwaddr s)
    v (lora_snr s) (lora_packet_length s) (status_report s)
    (spi_n s) (dio_n s) (rand_n s) (clock_n s) (trace s).

Definition set_lora_snr (v : Z) (s : state) : state :=
  mkState (is_sx1272 s) (receivedbytes s) (cp_nb_rx_rcv s) (cp_nb_rx_ok s)
    (cp_up_pkt_fwd s) (transmission_mode s) (sf s) (freq s) (ifr_hwaddr s)
    (lora_packet s) v (lora_packet_length s) (status_report s)
    (spi_n s) (dio_n s) (rand_n s) (clock_n s) (trace s).

Definition set_lora_packet_length (v : Z) (s : state) : state :=
  mkState (is_sx1272 s) (receivedbytes s) (cp_nb_rx_rcv s) (cp_nb_rx_ok s)
    (cp_up_pkt_fwd s) (transmission_mode s) (sf s) (freq s) (ifr_hwaddr s)
    (lora_packet s) (lora_snr s) v (status_report s)
    (spi_n s) (dio_n s) (rand_n s) (clock_n s) (trace s).

Definition set_status_report (v : list Z) (s : state) : state :=
  mkState (is_sx1272 s) (receivedbytes s) (cp_nb_rx_rcv s) (cp_nb_rx_ok s)
    (cp_up_pkt_fwd s) (transmission_mode s) (sf s) (freq s) (ifr_hwaddr s)
    (lora_packet s) (lora_snr s) (lora_packet_length s) v
    (spi_n s) (dio_n s) (rand_n s) (clock_n s) (trace s).

Definition set_spi_n (v : nat) (s : state) : state :=
  mkState (is_sx1272 s) (receivedbytes s) (cp_nb_rx_rcv s) (cp_nb_rx_ok s)
    (cp_up_pkt_fwd s) (transmission_mode s) (sf s) (freq s) (ifr_hwaddr s)
    (lora_packet s) (lora_snr s) (lora_packet_length s) (status_report s)
    v (dio_n s) (rand_n s) (clock_n s) (trace s).

Definition set_dio_n (v : nat) (s : state) : state :=
  mkState (is_sx1272 s) (receivedbytes s) (cp_nb_rx_rcv s) (cp_nb_rx_ok s)
    (cp_up_pkt_fwd s) (transmission_mode s) (sf s) (freq s) (ifr_hwaddr s)
    (lora_packet s) (lora_snr s) (lora_packet_length s) (status_report s)
    (spi_n s) v (rand_n s) (clock_n s) (trace s).

Definition set_rand_n (v : nat) (s : state) : state :=
  mkState (is_sx1272 s) (receivedbytes s) (cp_nb_rx_rcv s) (cp_nb_rx_ok s)
    (cp_up_pkt_fwd s) (transmission_mode s) (sf s) (freq s) (ifr_hwaddr s)
    (lora_packet s) (lora_snr s) (lora_packet_length s) (status_report s)
    (spi_n s) (dio_n s) v (clock_n s) (trace s).

Definition set_clock_n (v : nat) (s : state) : state :=
  mkState (is_sx1272 s) (receivedbytes s) (cp_nb_rx_rcv s) (cp_nb_rx_ok s)
    (cp_up_pkt_fwd s) (transmission_mode s) (sf s) (freq s) (ifr_hwaddr s)
    (lora_packet s) (lora_snr s) (lora_packet_length s) (status_report s)
    (spi_n s) (dio_n s) (rand_n s) v (trace s).

Definition set_trace (v : list event) (s : state) : state :=
  mkState (is_sx1272 s) (receivedbytes s) (cp_nb_rx_rcv s) (cp_nb_rx_ok s)
    (cp_up_pkt_fwd s) (transmission_mode s) (sf s) (freq s) (ifr_hwaddr s)
    (lora_packet s) (lora_snr s) (lora_packet_length s) (status_report s)
    (spi_n s) (dio_n s) (rand_n s) (clock_n s) v.

(** ** The monad of the program: state passing, [None] for a run that
    leaves defined behaviour (a store outside an array). *)
Definition M (A : Type) : Type := state -> option (A * state).

Definition ret {A} (a : A) : M A := fun s => Some (a, s).

Definition bind {A B} (c : M A) (k : A -> M B) : M B :=
  fun s => match c s with
           | Some (a, s') => k a s'
           | None => None
           end.

Definition undefined {A} : M A := fun _ => None.
Definition get : M state := fun s => Some (s, s).
Definition modify (f : state -> state) : M unit := fun s => Some (tt, f s).
Definition emit (ev : event) : M unit :=
  modify (fun s => set_trace (ev :: trace s) s).
Definition lift_option {A} (o : option A) : M A :=
  fun s => match o with Some a => Some (a, s) | None => None end.

Declare Scope prog_scope.
Delimit Scope prog_scope with prog.
Notation "x <- c ;; k" := (bind c (fun x => k))
  (at level 61, c at next level, right associativity) : prog_scope.
Notation "c ;; k" := (bind c (fun _ => k))
  (at level 61, right associativity) : prog_scope.
Open Scope prog_scope.

(** ** Arrays of characters *)

(** A store of the characters [src] at offset [off] of an array; outside
    the array the behaviour is undefined. *)
Definition pokes (buf : list Z) (off : Z) (src : list Z) : option (list Z) :=
  if (0 <=? off) && (off + Z.of_nat (length src) <=? Z.of_nat (length buf))
  then Some (firstn (Z.to_nat off) buf ++ src
             ++ skipn (Z.to_nat off + length src) buf)
  else None.

Definition poke (buf : list Z) (off : Z) (c : Z) : option (list Z) :=
  pokes buf off [to_uint8 c].

(** The characters of a C string that starts at the head of [l]. *)
Fixpoint c_string (l : list Z) : list Z :=
  match l with
  | [] => []
  | c :: l' => if c =? 0 then [] else c :: c_string l'
  end.

(** The characters of a string literal of the source.  The literals of
    the source contain no apostrophe, so an apostrophe written here
    stands for the double quote of the source (character 34). *)
Definition char_code (a : ascii) : Z :=
  if Ascii.eqb a "'"%char then 34 else Z.of_N (N_of_ascii a).

Fixpoint lit (s : string) : list Z :=
  match s with
  | EmptyString => []
  | String a s' => char_code a :: lit s'
  end.

(** [memcpy(buf + off, "literal", n)]: a literal is followed by its
    terminator. *)
Definition memcpy (buf : list Z) (off : Z) (s : string) (n : Z)
  : option (list Z) :=
  pokes buf off (firstn (Z.to_nat n) (lit s ++ [0])).

(** [snprintf(buf + off, size, ...)], where [text] is the complete
    formatted output: at most [size - 1] characters and a terminator are
    stored, nothing when [size] is 0, and the length of the complete
    output is returned.  [size] arrives as a [size_t]. *)
Definition snprintf (buf : list Z) (off size : Z) (text : list Z)
  : option (list Z * Z) :=
  let n := to_size_t size in
  if n =? 0 then Some (buf, Z.of_nat (length text))
  else match pokes buf off (firstn (Z.to_nat (n - 1)) text ++ [0]) with
       | Some buf' => Some (buf', Z.of_nat (length text))
       | None => None
       end.

(** ** Formatting of numbers, as [printf] does it *)

(** Decimal digits, most significant first; [fuel] bounds their number. *)
Fixpoint dec_digits (fuel : nat) (n : Z) : list Z :=
  match fuel with
  | O => []
  | S f => (if n <? 10 then [] else dec_digits f (n / 10)) ++ [48 + n mod 10]
  end.

(** Exactly [w] digits, zero padded. *)
Fixpoint fixed_digits (w : nat) (n : Z) : list Z :=
  match w with
  | O => []
  | S w' => fixed_digits w' (n / 10) ++ [48 + n mod 10]
  end.

(** [%u] of a 32-bit unsigned value: at most ten digits. *)
Definition fmt_u (n : Z) : list Z := dec_digits 10 n.

(** [%d], [%i] and [%li] of a 32-bit signed value. *)
Definition fmt_d (n : Z) : list Z :=
  if n <? 0 then 45 :: fmt_u (- n) else fmt_u n.

(** [%.6lf] of [(double)hz / 1000000] for a 32-bit [hz].  The quotient
    is a multiple of 10^-6 below 4295; its nearest double differs from it
    by less than 10^-12, so the six printed decimals are those of the
    exact quotient. *)
Definition fmt_mhz (hz : Z) : list Z :=
  fmt_u (hz / 1000000) ++ [46] ++ fixed_digits 6 (hz mod 1000000).

(** The value a digit string denotes. *)
Definition digits_value (ds : list Z) : Z :=
  fold_left (fun acc d => 10 * acc + (d - 48)) ds 0.

(** ** Pure fragments of the driver *)

(** Lines 304-307: the three FRF register bytes of a frequency. *)
Definition frf_of (hz : Z) : Z := to_uint64 (Z.shiftl hz 19) / 32000000.
Definition frf_msb (hz : Z) : Z := to_uint8 (Z.shiftr (frf_of hz) 16).
Definition frf_mid (hz : Z) : Z := to_uint8 (Z.shiftr (frf_of hz) 8).
Definition frf_lsb (hz : Z) : Z := to_uint8 (Z.shiftr (frf_of hz) 0).

(** Lines 469-479: the SNR from the byte of REG_PKT_SNR_VALUE. *)
Definition decode_snr (value : Z) : Z :=
  if negb (Z.land value 0x80 =? 0) then
    let value := to_uint8 (Z.shiftr (Z.land (Z.lnot value + 1) 0xFF) 2) in
    - value
  else
    Z.shiftr (Z.land value 0xFF) 2.

(** Lines 481-485: the RSSI correction of the detected chip. *)
Definition rssicorr_of (sx1272 : bool) : Z := if sx1272 then 139 else 157.

(** Lines 549-577: the [datr] prefix of a spreading factor. *)
Definition datr_literal (sf : Z) : string * Z :=
  if sf =? SF7 then (",'datr':'SF7", 12)
  else if sf =? SF8 then (",'datr':'SF8", 12)
  else if sf =? SF9 then (",'datr':'SF9", 12)
  else if sf =? SF10 then (",'datr':'SF10", 13)
  else if sf =? SF11 then (",'datr':'SF11", 13)
  else if sf =? SF12 then (",'datr':'SF12", 13)
  else (",'datr':'SF?", 12).

(** Line 444: the fully formatted status text. *)
Definition stat_json (stamp : list Z) (alt rxnb rxok rxfw : Z) : list Z :=
  lit "{'stat':{'time':'" ++ stamp
  ++ lit "','lati':" ++ lit "0.00000"
  ++ lit ",'long':" ++ lit "0.00000"
  ++ lit ",'alti':" ++ fmt_d alt
  ++ lit ",'rxnb':" ++ fmt_u rxnb
  ++ lit ",'rxok':" ++ fmt_u rxok
  ++ lit ",'rxfw':" ++ fmt_u rxfw
  ++ lit ",'ackr':" ++ lit "0.0"
  ++ lit ",'dwnb':" ++ fmt_u 0
  ++ lit ",'txnb':" ++ fmt_u 0
  ++ lit ",'pfrm':'" ++ lit "Single Channel Gateway"
  ++ lit "','mail':'" ++ lit ""
  ++ lit "','desc':'" ++ lit ""
  ++ lit "'}}".

(** [lat], [lon] and [alt] keep their initial values 0.0, 0.0 and 0:
    nothing in the program assigns them.  [stat_json] holds the texts
    that [%.5f] produces for the first two. *)
Definition alt : Z := 0.

(** ** The driver *)

Section Driver.

Variable h : hope_rfm96_h.
Variable e : env.

(** *** wiringPi, libc *)

Definition wiringPiSetup : M unit := emit EvWiringPiSetup.
Definition pinMode (pin mode : Z) : M unit := emit (EvPinMode pin mode).
Definition wiringPiSPISetup (chan speed : Z) : M unit :=
  emit (EvSPISetup chan speed).
Definition digitalWrite (pin level : Z) : M unit :=
  emit (EvDigitalWrite pin level).
Definition delay (ms : Z) : M unit := emit (EvDelay ms).

Definition digitalRead (pin : Z) : M Z :=
  s <- get ;;
  let v := gpio_level e (dio_n s) in
  modify (set_dio_n (S (dio_n s))) ;;
  emit (EvDigitalRead pin v) ;;
  ret v.

(** One two-byte full-duplex transfer; the result is the second byte
    left in the transfer buffer. *)
Definition wiringPiSPIDataRW (chan tx0 tx1 : Z) : M Z :=
  s <- get ;;
  let rx1 := to_uint8 (spi_miso e (spi_n s)) in
  modify (set_spi_n (S (spi_n s))) ;;
  emit (EvSPIDataRW chan tx0 tx1 rx1) ;;
  ret rx1.

Definition rand : M Z :=
  s <- get ;;
  modify (set_rand_n (S (rand_n s))) ;;
  ret (rand_value e (rand_n s)).

(** [gettimeofday]: seconds and microseconds. *)
Definition gettimeofday : M (Z * Z) :=
  s <- get ;;
  modify (set_clock_n (S (clock_n s))) ;;
  ret (clock_sec e (clock_n s), clock_usec e (clock_n s)).

(** [time(NULL)]. *)
Definition time : M Z :=
  s <- get ;;
  modify (set_clock_n (S (clock_n s))) ;;
  ret (clock_sec e (clock_n s)).

(** [strftime] into a 24-character array: at most 23 characters come
    before the terminator. *)
Definition strftime_24 (t : Z) : list Z :=
  firstn 23 (c_string (map to_uint8 (strftime_text e t))).

(** *** The register bus *)

Definition selectreceiver : M unit := digitalWrite ssPin LOW.
Definition unselectreceiver : M unit := digitalWrite ssPin HIGH.

Definition readDraginoRegister (addr : Z) : M Z :=
  let addr := to_uint8 addr in
  selectreceiver ;;
  rx <- wiringPiSPIDataRW CHANNEL (Z.land addr 0x7F) 0x00 ;;
  unselectreceiver ;;
  ret rx.

Definition writeDraginoRegister (addr value : Z) : M unit :=
  let addr := to_uint8 addr in
  let value := to_uint8 value in
  selectreceiver ;;
  wiringPiSPIDataRW CHANNEL (Z.lor addr 0x80) value ;;
  unselectreceiver.

(** *** receivePkt *)

Definition store_payload (i c : Z) : M unit :=
  s <- get ;;
  p <- lift_option (poke (lora_packet s) i c) ;;
  modify (set_lora_packet p).

(** The loop of lines 251-254, [n] iterations from index [i]. *)
Fixpoint receivePkt_loop (n : nat) (i : Z) : M unit :=
  match n with
  | O => ret tt
  | S n' =>
      c <- readDraginoRegister REG_FIFO ;;
      store_payload i c ;;
      receivePkt_loop n' (i + 1)
  end.

Definition receivePkt : M bool :=
  writeDraginoRegister REG_IRQ_FLAGS 0x40 ;;
  irqflags <- readDraginoRegister REG_IRQ_FLAGS ;;
  modify (fun s => set_cp_nb_rx_rcv (to_uint32 (cp_nb_rx_rcv s + 1)) s) ;;
  if Z.land irqflags 0x20 =? 0x20 then
    emit (EvPrintf MsgCrcError) ;;
    writeDraginoRegister REG_IRQ_FLAGS 0x20 ;;
    ret false
  else
    modify (fun s => set_cp_nb_rx_ok (to_uint32 (cp_nb_rx_ok s + 1)) s) ;;
    currentAddr <- readDraginoRegister REG_FIFO_RX_CURRENT_ADDR ;;
    receivedCount <- readDraginoRegister REG_RX_NB_BYTES ;;
    modify (set_receivedbytes receivedCount) ;;
    writeDraginoRegister REG_FIFO_ADDR_PTR currentAddr ;;
    receivePkt_loop (Z.to_nat receivedCount) 0 ;;
    ret true.

(** *** setupDraginoLoRa *)

Definition setupDraginoLoRa (address mode channel : Z) (power : string)
  : M Z :=
  wiringPiSetup ;;
  pinMode ssPin OUTPUT ;;
  pinMode dio0 INPUT ;;
  pinMode RST OUTPUT ;;
  wiringPiSPISetup CHANNEL 500000 ;;
  modify (set_transmission_mode mode) ;;
  digitalWrite RST HIGH ;;
  delay 100 ;;
  digitalWrite RST LOW ;;
  delay 100 ;;
  version <- readDraginoRegister REG_VERSION ;;
  detected <-
    (if version =? 0x22 then
       emit (EvPrintf MsgSx1272Detected) ;;
       modify (set_is_sx1272 true) ;;
       ret true
     else
       digitalWrite RST LOW ;;
       delay 100 ;;
       digitalWrite RST HIGH ;;
       delay 100 ;;
       version <- readDraginoRegister REG_VERSION ;;
       if version =? 0x12 then
         emit (EvPrintf MsgSx1276Detected) ;;
         modify (set_is_sx1272 false) ;;
         ret true
       else
         emit (EvPrintf MsgUnrecognized) ;;
         ret false) ;;
  if negb detected then ret (-1) else
  writeDraginoRegister REG_OPMODE SX72_MODE_SLEEP ;;
  s <- get ;;
  writeDraginoRegister REG_FRF_MSB (frf_msb (freq s)) ;;
  writeDraginoRegister REG_FRF_MID (frf_mid (freq s)) ;;
  writeDraginoRegister REG_FRF_LSB (frf_lsb (freq s)) ;;
  (if is_sx1272 s then
     (if (sf s =? SF11) || (sf s =? SF12) then
        writeDraginoRegister REG_MODEM_CONFIG 0x0B
      else
        writeDraginoRegister REG_MODEM_CONFIG 0x0A) ;;
     writeDraginoRegister REG_MODEM_CONFIG2 (Z.lor (Z.shiftl (sf s) 4) 0x04)
   else
     (if (sf s =? SF11) || (sf s =? SF12) then
        writeDraginoRegister REG_MODEM_CONFIG3 0x0C
      else
        writeDraginoRegister REG_MODEM_CONFIG3 0x04) ;;
     writeDraginoRegister REG_MODEM_CONFIG 0x72 ;;
     writeDraginoRegister REG_MODEM_CONFIG2 (Z.lor (Z.shiftl (sf s) 4) 0x04)) ;;
  (if (sf s =? SF10) || (sf s =? SF11) || (sf s =? SF12) then
     writeDraginoRegister REG_SYMB_TIMEOUT_LSB 0x05
   else
     writeDraginoRegister REG_SYMB_TIMEOUT_LSB 0x08) ;;
  writeDraginoRegister REG_MAX_PAYLOAD_LENGTH 0x80 ;;
  writeDraginoRegister REG_PAYLOAD_LENGTH PAYLOAD_LENGTH ;;
  writeDraginoRegister REG_HOP_PERIOD 0xFF ;;
  base <- readDraginoRegister REG_FIFO_RX_BASE_AD ;;
  writeDraginoRegister REG_FIFO_ADDR_PTR base ;;
  let FIXED_RH_RF95_BW_125KHZ := 0x70 in
  let FIXED_RH_RF95_CODING_RATE_4_5 := 0x02 in
  let RH_RF95_SPREADING_FACTOR_4096CPS := 0xc0 in
  (if transmission_mode s =? 1 then
     writeDraginoRegister (REG_RegModemConfig1 h)
       (FIXED_RH_RF95_BW_125KHZ + FIXED_RH_RF95_CODING_RATE_4_5) ;;
     writeDraginoRegister (REG_RegModemConfig2 h)
       RH_RF95_SPREADING_FACTOR_4096CPS
   else
     emit (EvPrintf (MsgUnknownMode (transmission_mode s)))) ;;
  let preamble_length := 8 in
  writeDraginoRegister (REG_RegPreambleMsb h) (Z.shiftr preamble_length 8) ;;
  writeDraginoRegister (REG_RegPreambleLsb h) (Z.land preamble_length 0xff) ;;
  let RH_RF69_REG_39_NODEADRS := 0x39 in
  writeDraginoRegister RH_RF69_REG_39_NODEADRS 0x12 ;;
  let tmp := 0x04 in
  let tmp := if transmission_mode s =? 1 then Z.lor tmp 0x08 else tmp in
  writeDraginoRegister (REG_RegModemConfig3 h) tmp ;;
  writeDraginoRegister 0x31 0x43 ;;
  writeDraginoRegister (REG_RegPaRamp h) 0x09 ;;
  writeDraginoRegister REG_LNA LNA_MAX_GAIN ;;
  writeDraginoRegister REG_OPMODE SX72_MODE_RX_CONTINUOS ;;
  ret 0.

(** *** sendstat *)

(** [(unsigned char)ifr.ifr_hwaddr.sa_data[i]] *)
Definition hwaddr_byte (s : state) (i : nat) : Z :=
  to_uint8 (nth i (ifr_hwaddr s) 0).

(** A store into the function-static [status_report]. *)
Definition status_store (i c : Z) : M unit :=
  s <- get ;;
  b <- lift_option (poke (status_report s) i c) ;;
  modify (set_status_report b).

Definition sendstat : M unit :=
  let stat_index := 0 in
  status_store 0 PROTOCOL_VERSION ;;
  status_store 3 PKT_PUSH_DATA ;;
  s <- get ;;
  status_store 4 (hwaddr_byte s 0) ;;
  status_store 5 (hwaddr_byte s 1) ;;
  status_store 6 (hwaddr_byte s 2) ;;
  status_store 7 0xFF ;;
  status_store 8 0xFF ;;
  status_store 9 (hwaddr_byte s 3) ;;
  status_store 10 (hwaddr_byte s 4) ;;
  status_store 11 (hwaddr_byte s 5) ;;
  r <- rand ;;
  let token_h := to_uint8 r in
  r <- rand ;;
  let token_l := to_uint8 r in
  status_store 1 token_h ;;
  status_store 2 token_l ;;
  let stat_index := 12 in
  t <- time ;;
  let stat_timestamp := strftime_24 t in
  s <- get ;;
  r <- lift_option
         (snprintf (status_report s) stat_index (STATUS_SIZE - stat_index)
            (stat_json stat_timestamp alt (cp_nb_rx_rcv s) (cp_nb_rx_ok s)
               (cp_up_pkt_fwd s))) ;;
  modify (set_status_report (fst r)) ;;
  let j := snd r in
  let stat_index := stat_index + j in
  status_store stat_index 0 ;;
  s <- get ;;
  emit (EvPrintf (MsgStatUpdate (c_string (skipn 12 (status_report s))))).

(** *** receiveDraginoPacket *)

(** [dumpMessage]: one line per character, [n] lines from index [r]. *)
Fixpoint dumpMessage_loop (msg : list Z) (n : nat) (r : Z) : M unit :=
  match n with
  | O => ret tt
  | S n' =>
      emit (EvPrintf (MsgDump r (nth (Z.to_nat r) msg 0))) ;;
      dumpMessage_loop msg n' (r + 1)
  end.

Definition dumpMessage (msg : list Z) (len : Z) : M unit :=
  dumpMessage_loop msg (Z.to_nat len) 0.

(** The contents of the local [buff_up] when it comes into scope. *)
Definition buff_up_uninitialised : list Z :=
  map (fun i => to_uint8 (stack_junk e i)) (seq 0 (Z.to_nat TX_BUFF_SIZE)).

(** Lines 497-606: the composition of the upstream datagram in the local
    [buff_up]; the result is the buffer and [buff_index] as they are
    when the composition ends. *)
Definition compose_rxpk (rssicorr : Z) : M (list Z * Z) :=
  let buff_up := buff_up_uninitialised in
  let buff_index := 0 in
  buff_up <- lift_option (poke buff_up 0 PROTOCOL_VERSION) ;;
  buff_up <- lift_option (poke buff_up 3 PKT_PUSH_DATA) ;;
  s <- get ;;
  buff_up <- lift_option (poke buff_up 4 (hwaddr_byte s 0)) ;;
  buff_up <- lift_option (poke buff_up 5 (hwaddr_byte s 1)) ;;
  buff_up <- lift_option (poke buff_up 6 (hwaddr_byte s 2)) ;;
  buff_up <- lift_option (poke buff_up 7 0xFF) ;;
  buff_up <- lift_option (poke buff_up 8 0xFF) ;;
  buff_up <- lift_option (poke buff_up 9 (hwaddr_byte s 3)) ;;
  buff_up <- lift_option (poke buff_up 10 (hwaddr_byte s 4)) ;;
  buff_up <- lift_option (poke buff_up 11 (hwaddr_byte s 5)) ;;
  r <- rand ;;
  let token_h := to_uint8 r in
  r <- rand ;;
  let token_l := to_uint8 r in
  buff_up <- lift_option (poke buff_up 1 token_h) ;;
  buff_up <- lift_option (poke buff_up 2 token_l) ;;
  let buff_index := 12 in
  now <- gettimeofday ;;
  let tmst := to_uint32 (fst now * 1000000 + snd now) in
  buff_up <- lift_option (memcpy buff_up buff_index "{'rxpk':[" 9) ;;
  let buff_index := buff_index + 9 in
  buff_up <- lift_option (poke buff_up buff_index 123) ;;
  let buff_index := buff_index + 1 in
  r <- lift_option
         (snprintf buff_up buff_index (TX_BUFF_SIZE - buff_index)
            (lit "'tmst':" ++ fmt_u tmst)) ;;
  let buff_up := fst r in
  let buff_index := buff_index + snd r in
  s <- get ;;
  r <- lift_option
         (snprintf buff_up buff_index (TX_BUFF_SIZE - buff_index)
            (lit ",'chan':" ++ fmt_u 0 ++ lit ",'rfch':" ++ fmt_u 0
             ++ lit ",'freq':" ++ fmt_mhz (freq s))) ;;
  let buff_up := fst r in
  let buff_index := buff_index + snd r in
  buff_up <- lift_option (memcpy buff_up buff_index ",'stat':1" 9) ;;
  let buff_index := buff_index + 9 in
  buff_up <- lift_option (memcpy buff_up buff_index ",'modu':'LORA'" 14) ;;
  let buff_index := buff_index + 14 in
  let datr := datr_literal (sf s) in
  buff_up <- lift_option (memcpy buff_up buff_index (fst datr) (snd datr)) ;;
  let buff_index := buff_index + snd datr in
  buff_up <- lift_option (memcpy buff_up buff_index "BW125'" 6) ;;
  let buff_index := buff_index + 6 in
  buff_up <- lift_option (memcpy buff_up buff_index ",'codr':'4/5'" 13) ;;
  let buff_index := buff_index + 13 in
  r <- lift_option
         (snprintf buff_up buff_index (TX_BUFF_SIZE - buff_index)
            (lit ",'lsnr':" ++ fmt_d (lora_snr s))) ;;
  let buff_up := fst r in
  let buff_index := buff_index + snd r in
  raw <- readDraginoRegister 0x1A ;;
  s <- get ;;
  r <- lift_option
         (snprintf buff_up buff_index (TX_BUFF_SIZE - buff_index)
            (lit ",'rssi':" ++ fmt_d (raw - rssicorr)
             ++ lit ",'size':" ++ fmt_u (receivedbytes s))) ;;
  let buff_up := fst r in
  let buff_index := buff_index + snd r in
  buff_up <- lift_option (memcpy buff_up buff_index ",'data':'" 9) ;;
  let buff_index := buff_index + 9 in
  let j := 0 in
  modify (set_lora_packet_length (receivedbytes s)) ;;
  dumpMessage (lora_packet s) (receivedbytes s) ;;
  let buff_index := buff_index + j in
  buff_up <- lift_option (poke buff_up buff_index 34) ;;
  let buff_index := buff_index + 1 in
  buff_up <- lift_option (poke buff_up buff_index 125) ;;
  let buff_index := buff_index + 1 in
  buff_up <- lift_option (poke buff_up buff_index 93) ;;
  let buff_index := buff_index + 1 in
  buff_up <- lift_option (poke buff_up buff_index 125) ;;
  let buff_index := buff_index + 1 in
  buff_up <- lift_option (poke buff_up buff_index 0) ;;
  ret (buff_up, buff_index).

Definition receiveDraginoPacket : M Z :=
  level <- digitalRead dio0 ;;
  if level =? 1 then
    received <- receivePkt ;;
    if received : bool then
      value <- readDraginoRegister REG_PKT_SNR_VALUE ;;
      modify (set_lora_snr (decode_snr value)) ;;
      s <- get ;;
      let rssicorr := rssicorr_of (is_sx1272 s) in
      raw <- readDraginoRegister 0x1A ;;
      emit (EvPrintf (MsgPacketRssi (raw - rssicorr))) ;;
      raw <- readDraginoRegister 0x1B ;;
      emit (EvPrintf (MsgRssi (raw - rssicorr))) ;;
      emit (EvPrintf (MsgSnr (lora_snr s))) ;;
      emit (EvPrintf (MsgLength (receivedbytes s))) ;;
      emit (EvPrintf MsgNewline) ;;
      up <- compose_rxpk rssicorr ;;
      emit (EvPrintf (MsgRxpkUpdate (c_string (skipn 12 (fst up))))) ;;
      ret 0
    else ret 1
  else ret 1.

(** *** draginoMain: the body of the endless loop (lines 657-668), and
    [n] rounds of it.  [lasttime] is the local of [draginoMain]. *)
Definition draginoMain_round (lasttime : Z) : M Z :=
  receiveDraginoPacket ;;
  nowtime <- gettimeofday ;;
  let nowseconds := to_uint32 (fst nowtime) in
  lasttime <-
    (if 30 <=? to_uint32 (nowseconds - lasttime) then
       let lasttime := nowseconds in
       sendstat ;;
       modify (set_cp_nb_rx_rcv 0) ;;
       modify (set_cp_nb_rx_ok 0) ;;
       modify (set_cp_up_pkt_fwd 0) ;;
       ret lasttime
     else ret lasttime) ;;
  delay 1 ;;
  ret lasttime.

Fixpoint draginoMain_loop (n : nat) (lasttime : Z) : M Z :=
  match n with
  | O => ret lasttime
  | S n' =>
      lasttime <- draginoMain_round lasttime ;;
      draginoMain_loop n' lasttime
  end.

End Driver.

(** ** Observations on a trace *)

(** The events of a trace that [f] selects, in the order of the trace. *)
Fixpoint pick {A} (f : event -> option A) (tr : list event) : list A :=
  match tr with
  | [] => []
  | ev :: tr' =>
      match f ev with
      | Some a => a :: pick f tr'
      | None => pick f tr'
      end
  end.

(** A register write is a transfer whose first byte has bit 7 set. *)
Definition as_reg_write (ev : event) : option (Z * Z) :=
  match ev with
  | EvSPIDataRW _ tx0 tx1 _ =>
      if Z.testbit tx0 7 then Some (Z.land tx0 0x7F, tx1) else None
  | _ => None
  end.

Definition as_version_read (ev : event) : option Z :=
  match ev with
  | EvSPIDataRW _ tx0 _ rx1 => if tx0 =? REG_VERSION then Some rx1 else None
  | _ => None
  end.

Definition as_rxpk (ev : event) : option (list Z) :=
  match ev with
  | EvPrintf (MsgRxpkUpdate body) => Some body
  | _ => None
  end.

Definition as_stat (ev : event) : option (list Z) :=
  match ev with
  | EvPrintf (MsgStatUpdate body) => Some body
  | _ => None
  end.

Definition as_rssi (ev : event) : option Z :=
  match ev with
  | EvPrintf (MsgPacketRssi v) => Some v
  | EvPrintf (MsgRssi v) => Some v
  | _ => None
  end.

(** Oldest first. *)
Definition register_writes (tr : list event) : list (Z * Z) :=
  rev (pick as_reg_write tr).
Definition version_reads (tr : list event) : list Z :=
  rev (pick as_version_read tr).
Definition printed_rssi (tr : list event) : list Z :=
  rev (pick as_rssi tr).
(** Most recent first. *)
Definition uplink_frames (tr : list event) : list (list Z) := pick as_rxpk tr.
Definition stat_frames (tr : list event) : list (list Z) := pick as_stat tr.

(** The byte that the [n]-th SPI transfer returns. *)
Definition miso_byte (e : env) (n : nat) : Z := to_uint8 (spi_miso e n).

(** ** The wire frames, as texts *)

(** Bytes 0-11 of both datagrams. *)
Definition frame_header (token_h token_l : Z) (hw : nat -> Z) : list Z :=
  [PROTOCOL_VERSION; token_h; token_l; PKT_PUSH_DATA;
   hw 0%nat; hw 1%nat; hw 2%nat; 0xFF; 0xFF; hw 3%nat; hw 4%nat; hw 5%nat].

(** The complete text that lines 536-605 put together. *)
Definition rxpk_json (tmst hz sf snr rssi size : Z) : list Z :=
  lit "{'rxpk':[" ++ [123]
  ++ (lit "'tmst':" ++ fmt_u tmst)
  ++ (lit ",'chan':" ++ fmt_u 0 ++ lit ",'rfch':" ++ fmt_u 0
      ++ lit ",'freq':" ++ fmt_mhz hz)
  ++ lit ",'stat':1"
  ++ lit ",'modu':'LORA'"
  ++ lit (fst (datr_literal sf))
  ++ lit "BW125'"
  ++ lit ",'codr':'4/5'"
  ++ (lit ",'lsnr':" ++ fmt_d snr)
  ++ (lit ",'rssi':" ++ fmt_d rssi ++ lit ",'size':" ++ fmt_u size)
  ++ lit ",'data':'"
  ++ [34] ++ [125] ++ [93] ++ [125].

(** A status text whose [rxfw] field is [v]. *)
Definition reports_rxfw (body : list Z) (v : Z) : Prop :=
  exists stamp a rxnb rxok, body = stat_json stamp a rxnb rxok v.

(** ** The frequency registers in the words of the specification *)

(** [round(hz * 2^19 / 32000000)]: the nearest integer. *)
Definition spec_frf_round (hz : Z) : Z :=
  (2 * (hz * 2 ^ 19) + 32000000) / (2 * 32000000).

(** [floor(hz * 2^19 / 32000000)]. *)
Definition frf_floor (hz : Z) : Z := hz * 2 ^ 19 / 32000000.

(** A value truncated to 24 bits and split into MSB, MID and LSB. *)
Definition split24 (v : Z) : Z * Z * Z :=
  let t := v mod 2 ^ 24 in
  (t / 2 ^ 16, t / 2 ^ 8 mod 2 ^ 8, t mod 2 ^ 8).

(** The value that three register bytes denote. *)
Definition join24 (msb mid lsb : Z) : Z := msb * 2 ^ 16 + mid * 2 ^ 8 + lsb.

(** ** Initial state and sample environments *)

(** The variables as their initialisers leave them (lines 42-101; [sf]
    is SF12 because [transmission_mode] is 1), with [ifr] as the
    [SIOCGIFHWADDR] request of line 641 filled it and [packet] for the
    external [lora_packet]. *)
Definition initial_state (hwaddr packet : list Z) : state :=
  {| is_sx1272 := true;
     receivedbytes := 0;
     cp_nb_rx_rcv := 0;
     cp_nb_rx_ok := 0;
     cp_up_pkt_fwd := 0;
     transmission_mode := 1;
     sf := SF12;
     freq := 865200000;
     ifr_hwaddr := hwaddr;
     lora_packet := packet;
     lora_snr := 0;
     lora_packet_length := 0;
     status_report := repeat 0 (Z.to_nat STATUS_SIZE);
     spi_n := 0;
     dio_n := 0;
     rand_n := 0;
     clock_n := 0;
     trace := [] |}.

(** The register numbers of the RFM96 data sheet. *)
Definition rfm96_regs : hope_rfm96_h :=
  {| REG_RegModemConfig1 := 0x1D;
     REG_RegModemConfig2 := 0x1E;
     REG_RegPreambleMsb := 0x20;
     REG_RegPreambleLsb := 0x21;
     REG_RegModemConfig3 := 0x26;
     REG_RegPaRamp := 0x0A |}.

(** A bus that answers every transfer with [v], a DIO0 line held at
    [level] and a clock that advances [step] seconds per reading. *)
Definition steady_env (v level step : Z) : env :=
  {| spi_miso := fun _ => v;
     gpio_level := fun _ => level;
     rand_value := fun n => Z.of_nat n * 7919;
     clock_sec := fun n => 1700000000 + Z.of_nat n * step;
     clock_usec := fun _ => 250000;
     strftime_text := fun _ => lit "2023-11-14 22:13:20 GMT";
     stack_junk := fun _ => 0xAA |}.

Definition sample_hwaddr : list Z :=
  [0x12; 0x34; 0x56; 0x78; 0x9A; 0xBC; 0; 0; 0; 0; 0; 0; 0; 0].

Definition sample_state : state := initial_state sample_hwaddr (repeat 0 256%nat).

(** ** The traces of the two loops, most recent event first *)

(** The transfers of [n] FIFO reads, the first of which is transfer [k]. *)
Fixpoint fifo_events (e : env) (n k : nat) : list event :=
  match n with
  | O => []
  | S n' =>
      fifo_events e n' (S k)
      ++ [EvDigitalWrite ssPin HIGH;
          EvSPIDataRW CHANNEL (Z.land (to_uint8 REG_FIFO) 0x7F) 0x00
            (miso_byte e k);
          EvDigitalWrite ssPin LOW]
  end.

(** The bytes those reads return. *)
Fixpoint fifo_bytes (e : env) (n k : nat) : list Z :=
  match n with
  | O => []
  | S n' => to_uint8 (miso_byte e k) :: fifo_bytes e n' (S k)
  end.

(** The lines that [dumpMessage] prints. *)
Fixpoint dump_events (msg : list Z) (n : nat) (r : Z) : list event :=
  match n with
  | O => []
  | S n' =>
      dump_events msg n' (r + 1)
      ++ [EvPrintf (MsgDump r (nth (Z.to_nat r) msg 0))]
  end.

(** No character of [l] is the terminator. *)
Definition no_nul (l : list Z) : bool := forallb (fun c => negb (c =? 0)) l.

(** A value that fits one byte. *)
Definition is_byte (b : Z) : Prop := 0 <= b < 256.

(** The 256 values of a byte. *)
Definition all_bytes : list Z := map Z.of_nat (seq 0 256).

(** One step of the frequency register, in Hz: [32000000 / 2^19]. *)
Definition frf_step : Q := inject_Z 32000000 / inject_Z (2 ^ 19).

(** The inverse fixed-point formula: the frequency that three register
    bytes stand for. *)
Definition frf_to_hz (msb mid lsb : Z) : Q :=
  inject_Z (join24 msb mid lsb) * frf_step.

(** The sign handling of [decode_snr] at one byte, as a check. *)
Definition snr_sign_check (raw : Z) : bool :=
  if Z.testbit raw 7 then
    (decode_snr raw =? - Z.shiftr (Z.land (Z.lnot raw + 1) 0xFF) 2)
    && (decode_snr raw <=? 0)
    && Bool.eqb (decode_snr raw <? 0) (raw <=? 0xFC)
  else
    (decode_snr raw =? Z.shiftr (Z.land raw 0xFF) 2)
    && (0 <=? decode_snr raw).

(** A level written to the reset pin. *)
Definition as_rst_write (ev : event) : option Z :=
  match ev with
  | EvDigitalWrite pin level => if pin =? RST then Some level else None
  | _ => None
  end.

(** Oldest first. *)
Definition reset_writes (tr : list event) : list Z :=
  rev (pick as_rst_write tr).

(** The register writes of a complete run, or none for a run that is
    undefined. *)
Definition run_register_writes {A} (r : option (A * state)) : list (Z * Z) :=
  match r with
  | Some (_, s') => register_writes (trace s')
  | None => []
  end.

(** The trace of one register read and of one register write, the
    transfer being number [k]. *)
Definition read_events (e : env) (addr : Z) (k : nat) : list event :=
  [EvDigitalWrite ssPin HIGH;
   EvSPIDataRW CHANNEL (Z.land (to_uint8 addr) 0x7F) 0x00 (miso_byte e k);
   EvDigitalWrite ssPin LOW].

Definition write_events (e : env) (addr value : Z) (k : nat) : list event :=
  [EvDigitalWrite ssPin HIGH;
   EvSPIDataRW CHANNEL (Z.lor (to_uint8 addr) 0x80) (to_uint8 value)
     (miso_byte e k);
   EvDigitalWrite ssPin LOW].

(** What [compose_rxpk] and [sendstat] produce from a state: the
    header, the texts, and the state they leave.  [R] is what remains of
    the buffer behind the terminator. *)
Definition compose_header (e : env) (s : state) : list Z :=
  frame_header (to_uint8 (rand_value e (rand_n s)))
    (to_uint8 (rand_value e (S (rand_n s)))) (hwaddr_byte s).

Definition compose_json (e : env) (corr : Z) (s : state) : list Z :=
  rxpk_json
    (to_uint32 (clock_sec e (clock_n s) * 1000000 + clock_usec e (clock_n s)))
    (freq s) (sf s) (lora_snr s) (miso_byte e (spi_n s) - corr)
    (receivedbytes s).

Definition stat_text (e : env) (s : state) : list Z :=
  stat_json (strftime_24 e (clock_sec e (clock_n s))) alt
    (cp_nb_rx_rcv s) (cp_nb_rx_ok s) (cp_up_pkt_fwd s).

Definition after_sendstat (e : env) (s : state) (R : list Z) : state :=
  set_trace (EvPrintf (MsgStatUpdate (stat_text e s)) :: trace s)
    (set_status_report ((compose_header e s ++ stat_text e s) ++ 0 :: R)
       (set_clock_n (S (clock_n s)) (set_rand_n (S (S (rand_n s))) s))).

Definition after_compose (e : env) (s : state) : state :=
  set_trace
    (dump_events (lora_packet s) (Z.to_nat (receivedbytes s)) 0
     ++ read_events e 0x1A (spi_n s) ++ trace s)
    (set_lora_packet_length (receivedbytes s)
       (set_spi_n (S (spi_n s))
          (set_clock_n (S (clock_n s))
             (set_rand_n (S (S (rand_n s))) s)))).

(** A byte read from one of the RSSI registers 0x1A and 0x1B. *)
Definition as_rssi_read (ev : event) : option Z :=
  match ev with
  | EvSPIDataRW _ tx0 _ rx1 =>
      if (tx0 =? 0x1A) || (tx0 =? 0x1B) then Some rx1 else None
  | _ => None
  end.

(** Oldest first. *)
Definition rssi_reads (tr : list event) : list Z :=
  rev (pick as_rssi_read tr).

(** A computation that leaves the forwarded counter, the status buffer
    and the status frames of the trace as they are. *)
Definition keeps {A} (c : M A) : Prop :=
  forall s a s',
    c s = Some (a, s') ->
    cp_up_pkt_fwd s' = cp_up_pkt_fwd s
    /\ status_report s' = status_report s
    /\ stat_frames (trace s') = stat_frames (trace s).

(** The byte as a signed 8-bit value. *)
Definition signed_byte (b : Z) : Z := if b <? 128 then b else b - 256.

(** The characterisation of [decode_snr] at one byte, as a check. *)
Definition snr_quot_check (raw : Z) : bool :=
  (decode_snr raw =? Z.quot (signed_byte raw) 4)
  && (-32 <=? decode_snr raw) && (decode_snr raw <=? 31).


(** The register that a write or read of address [a] reaches: the bus
    carries seven address bits. *)
Definition reg7 (a : Z) : Z := Z.land (to_uint8 a) 0x7F.

(** The register programme of lines 301-387, for the detected chip, the
    spreading factor, the mode, the frequency and the byte read from
    REG_FIFO_RX_BASE_AD. *)
Definition config_writes (h : hope_rfm96_h) (sx1272 : bool)
    (sfv mode hz base : Z) : list (Z * Z) :=
  [(REG_OPMODE, SX72_MODE_SLEEP);
   (REG_FRF_MSB, frf_msb hz); (REG_FRF_MID, frf_mid hz);
   (REG_FRF_LSB, frf_lsb hz)]
  ++ (if sx1272 then
        [(REG_MODEM_CONFIG,
          if (sfv =? SF11) || (sfv =? SF12) then 0x0B else 0x0A);
         (REG_MODEM_CONFIG2, to_uint8 (Z.lor (Z.shiftl sfv 4) 0x04))]
      else
        [(REG_MODEM_CONFIG3,
          if (sfv =? SF11) || (sfv =? SF12) then 0x0C else 0x04);
         (REG_MODEM_CONFIG, 0x72);
         (REG_MODEM_CONFIG2, to_uint8 (Z.lor (Z.shiftl sfv 4) 0x04))])
  ++ [(REG_SYMB_TIMEOUT_LSB,
       if (sfv =? SF10) || (sfv =? SF11) || (sfv =? SF12) then 0x05 else 0x08);
      (REG_MAX_PAYLOAD_LENGTH, 0x80);
      (REG_PAYLOAD_LENGTH, PAYLOAD_LENGTH);
      (REG_HOP_PERIOD, 0xFF);
      (REG_FIFO_ADDR_PTR, base)]
  ++ (if mode =? 1 then
        [(reg7 (REG_RegModemConfig1 h), 0x72);
         (reg7 (REG_RegModemConfig2 h), 0xC0)]
      else [])
  ++ [(reg7 (REG_RegPreambleMsb h), 0x00);
      (reg7 (REG_RegPreambleLsb h), 0x08);
      (0x39, 0x12);
      (reg7 (REG_RegModemConfig3 h), if mode =? 1 then 0x0C else 0x04);
      (0x31, 0x43);
      (reg7 (REG_RegPaRamp h), 0x09);
      (REG_LNA, LNA_MAX_GAIN);
      (REG_OPMODE, SX72_MODE_RX_CONTINUOS)].


(** Every SPI transfer of a trace (most recent event first) stands
    between a write of LOW and a write of HIGH to the select pin, and
    the select pin is written nowhere else. *)
Fixpoint bus_framed (tr : list event) : bool :=
  match tr with
  | [] => true
  | EvDigitalWrite p1 l1 :: tr1 =>
      if p1 =? ssPin then
        (l1 =? HIGH)
        && match tr1 with
           | EvSPIDataRW _ _ _ _ :: EvDigitalWrite p2 l2 :: tr2 =>
               (p2 =? ssPin) && (l2 =? LOW) && bus_framed tr2
           | _ => false
           end
      else bus_framed tr1
  | EvSPIDataRW _ _ _ _ :: _ => false
  | _ :: tr1 => bus_framed tr1
  end.

(** A computation that keeps a framed trace framed. *)
Definition keeps_framed {A} (c : M A) : Prop :=
  forall s a s',
    c s = Some (a, s') ->
    bus_framed (trace s) = true -> bus_framed (trace s') = true.

(** An event that is neither a transfer nor a write to the select pin. *)
Definition quiet_event (ev : event) : bool :=
  match ev with
  | EvSPIDataRW _ _ _ _ => false
  | EvDigitalWrite p _ => negb (p =? ssPin)
  | _ => true
  end.

(** ** Properties *)

(** *** Arithmetic of the conversions *)

Lemma to_uint8_range x : 0 <= to_uint8 x < 256.
Proof. unfold to_uint8. apply Z.mod_pos_bound. lia. Qed.

Lemma to_uint8_small x : 0 <= x < 256 -> to_uint8 x = x.
Proof. intros H. unfold to_uint8. now apply Z.mod_small. Qed.

Lemma to_uint8_idem x : to_uint8 (to_uint8 x) = to_uint8 x.
Proof. apply to_uint8_small, to_uint8_range. Qed.

Lemma to_uint32_range x : 0 <= to_uint32 x < 2 ^ 32.
Proof. unfold to_uint32. apply Z.mod_pos_bound. lia. Qed.

Lemma miso_byte_range e n : 0 <= miso_byte e n < 256.
Proof. apply to_uint8_range. Qed.

(** A property checked on the 256 byte values holds of every byte. *)
Lemma byte_cases (P : Z -> bool) :
  forallb P all_bytes = true -> forall b, 0 <= b < 256 -> P b = true.
Proof.
  intros Hall b Hb.
  rewrite forallb_forall in Hall. apply Hall.
  unfold all_bytes. apply in_map_iff.
  exists (Z.to_nat b). split; [lia|].
  apply in_seq. lia.
Qed.

(** *** The frequency registers *)

Lemma frf_of_floor hz : 0 <= hz < 2 ^ 32 -> frf_of hz = frf_floor hz.
Proof.
  intros H. unfold frf_of, frf_floor, to_uint64.
  rewrite Z.shiftl_mul_pow2 by lia.
  rewrite Z.mod_small; [reflexivity|].
  split; [lia|].
  change (2 ^ 64) with (2 ^ 32 * 2 ^ 32). nia.
Qed.

(** Byte [k] of a value is the same whether the value is first cut to
    24 bits or not. *)
Lemma split24_bytes v :
  split24 v = (to_uint8 (Z.shiftr v 16), to_uint8 (Z.shiftr v 8),
               to_uint8 (Z.shiftr v 0)).
Proof.
  unfold split24, to_uint8.
  rewrite !Z.shiftr_div_pow2 by lia.
  change (2 ^ 0) with 1. change (2 ^ 24) with 16777216.
  change (2 ^ 8) with 256. change (2 ^ 16) with 65536.
  f_equal; [f_equal|]; Z.div_mod_to_equations; lia.
Qed.

Lemma frf_bytes_floor hz :
  0 <= hz < 2 ^ 32 ->
  (frf_msb hz, frf_mid hz, frf_lsb hz) = split24 (frf_floor hz).
Proof.
  intros H. rewrite split24_bytes.
  unfold frf_msb, frf_mid, frf_lsb. now rewrite frf_of_floor.
Qed.

Lemma join24_split24 v :
  0 <= v < 2 ^ 24 ->
  let '(msb, mid, lsb) := split24 v in join24 msb mid lsb = v.
Proof.
  intros H. unfold split24, join24.
  rewrite (Z.mod_small v) by lia.
  change (2 ^ 16) with (2 ^ 8 * 2 ^ 8).
  rewrite <- Z.div_div by lia.
  change (2 ^ 8) with 256.
  pose proof (Z.div_mod v 256 ltac:(lia)).
  pose proof (Z.div_mod (v / 256) 256 ltac:(lia)).
  lia.
Qed.

Lemma frf_floor_bounds hz :
  0 <= hz -> 0 <= hz * 2 ^ 19 - frf_floor hz * 32000000 < 32000000.
Proof.
  intros H. unfold frf_floor.
  pose proof (Z.div_mod (hz * 2 ^ 19) 32000000 ltac:(lia)).
  pose proof (Z.mod_pos_bound (hz * 2 ^ 19) 32000000 ltac:(lia)).
  lia.
Qed.

Lemma frf_floor_24 hz : 0 <= hz < 1024000000 -> 0 <= frf_floor hz < 2 ^ 24.
Proof.
  intros H. unfold frf_floor. split.
  - apply Z.div_pos; lia.
  - apply Z.div_lt_upper_bound; lia.
Qed.

Lemma frf_join hz :
  0 <= hz < 1024000000 ->
  join24 (frf_msb hz) (frf_mid hz) (frf_lsb hz) = frf_floor hz.
Proof.
  intros H.
  pose proof (frf_bytes_floor hz ltac:(lia)) as E.
  pose proof (join24_split24 (frf_floor hz) (frf_floor_24 hz H)) as J.
  destruct (split24 (frf_floor hz)) as [[a b] c].
  injection E as -> -> ->. exact J.
Qed.

(** C9.  For every frequency below 1024 MHz (the frequencies whose
    register value fits 24 bits; the range of both chips, 137 MHz to
    1020 MHz, lies within), the frequency recomputed from the three
    register bytes by the inverse formula [triple * 32000000 / 2^19]
    differs from the input by less than one register step. *)
Theorem frf_round_trip hz :
  0 <= hz < 1024000000 ->
  (Qabs (inject_Z hz - frf_to_hz (frf_msb hz) (frf_mid hz) (frf_lsb hz))
   < frf_step)%Q.
Proof.
  intros H. unfold frf_to_hz. rewrite frf_join by assumption.
  pose proof (frf_floor_bounds hz ltac:(lia)) as B.
  set (t := frf_floor hz) in *.
  apply Qabs_Qlt_condition. unfold frf_step.
  change (2 ^ 19) with 524288 in *.
  unfold Qlt, Qminus, Qplus, Qopp, Qmult, Qdiv, Qinv, inject_Z.
  cbn -[Z.mul].
  split; lia.
Qed.

Lemma frf_round_trip_witness :
  0 <= 865200000 < 1024000000 /\
  (Qabs (inject_Z 865200000
         - frf_to_hz (frf_msb 865200000) (frf_mid 865200000)
             (frf_lsb 865200000))
   < frf_step)%Q.
Proof.
  split; [lia|]. apply (frf_round_trip 865200000). lia.
Defined.

(** *** The SNR *)

(** C3, as the code has it.  For every raw SNR byte with bit 7 set the
    decoded value is [-(((~raw+1)&0xFF)>>2)]; it is never positive, and
    it is negative exactly for the bytes up to 0xFC (0xFD, 0xFE and 0xFF
    decode to 0).  For every byte with bit 7 clear the decoded value is
    [(raw&0xFF)>>2], which is not negative. *)
Theorem decode_snr_sign_handling (raw : Z) :
  is_byte raw ->
  if Z.testbit raw 7 then
    decode_snr raw = - Z.shiftr (Z.land (Z.lnot raw + 1) 0xFF) 2
    /\ decode_snr raw <= 0
    /\ (decode_snr raw < 0 <-> raw <= 0xFC)
  else
    decode_snr raw = Z.shiftr (Z.land raw 0xFF) 2
    /\ 0 <= decode_snr raw.
Proof.
  intros Hraw.
  assert (Hall : forallb snr_sign_check all_bytes = true)
    by (vm_compute; reflexivity).
  pose proof (byte_cases snr_sign_check Hall raw Hraw) as Hc.
  unfold snr_sign_check in Hc.
  destruct (Z.testbit raw 7).
  - apply andb_true_iff in Hc. destruct Hc as [Hc Hneg].
    apply andb_true_iff in Hc. destruct Hc as [Heq Hle].
    apply Z.eqb_eq in Heq. apply Z.leb_le in Hle.
    apply Bool.eqb_prop in Hneg.
    repeat split; try assumption.
    + intros Hlt. apply Z.ltb_lt in Hlt.
      rewrite Hlt in Hneg. symmetry in Hneg. now apply Z.leb_le.
    + intros Hfc. apply Z.leb_le in Hfc.
      rewrite Hfc in Hneg. now apply Z.ltb_lt.
  - apply andb_true_iff in Hc. destruct Hc as [Heq Hle].
    apply Z.eqb_eq in Heq. apply Z.leb_le in Hle. now split.
Qed.

Lemma decode_snr_sign_handling_witness :
  is_byte 0xFE /\
  (decode_snr 0xFE = - Z.shiftr (Z.land (Z.lnot 0xFE + 1) 0xFF) 2
   /\ decode_snr 0xFE <= 0
   /\ (decode_snr 0xFE < 0 <-> 0xFE <= 0xFC)).
Proof.
  split; [unfold is_byte; lia|].
  apply (decode_snr_sign_handling 0xFE). unfold is_byte; lia.
Defined.

(** C3 as the specification states it fails at 0xFF: bit 7 is set and
    the decoded value is 0, which is not negative. *)
Lemma decode_snr_not_negative_at_0xFF :
  Z.testbit 0xFF 7 = true /\ ~ decode_snr 0xFF < 0.
Proof. split; [reflexivity|]. vm_compute. discriminate. Qed.

(** *** Running the program symbolically *)

(** Unfolds the monad, the primitives and the state updates. *)
Tactic Notation "exec" :=
  lazy beta iota zeta delta
    [bind ret get modify emit lift_option undefined
     wiringPiSetup pinMode wiringPiSPISetup digitalWrite delay digitalRead
     wiringPiSPIDataRW rand gettimeofday time
     selectreceiver unselectreceiver readDraginoRegister writeDraginoRegister
     status_store store_payload hwaddr_byte
     set_is_sx1272 set_receivedbytes set_cp_nb_rx_rcv set_cp_nb_rx_ok
     set_cp_up_pkt_fwd set_transmission_mode set_lora_packet set_lora_snr
     set_lora_packet_length set_status_report set_spi_n set_dio_n set_rand_n
     set_clock_n set_trace
     is_sx1272 receivedbytes cp_nb_rx_rcv cp_nb_rx_ok cp_up_pkt_fwd
     transmission_mode sf freq ifr_hwaddr lora_packet lora_snr
     lora_packet_length status_report spi_n dio_n rand_n clock_n trace
     fst snd negb].

Tactic Notation "exec" "in" hyp(H) :=
  lazy beta iota zeta delta
    [set_is_sx1272 set_receivedbytes set_cp_nb_rx_rcv set_cp_nb_rx_ok
     set_cp_up_pkt_fwd set_transmission_mode set_lora_packet set_lora_snr
     set_lora_packet_length set_status_report set_spi_n set_dio_n set_rand_n
     set_clock_n set_trace
     is_sx1272 receivedbytes cp_nb_rx_rcv cp_nb_rx_ok cp_up_pkt_fwd
     transmission_mode sf freq ifr_hwaddr lora_packet lora_snr
     lora_packet_length status_report spi_n dio_n rand_n clock_n trace
     fst snd negb] in H.

(** *** Observing a trace *)

Lemma pick_app {A} (f : event -> option A) tr1 tr2 :
  pick f (tr1 ++ tr2) = pick f tr1 ++ pick f tr2.
Proof.
  induction tr1 as [|ev tr1 IH]; [reflexivity|].
  cbn. destruct (f ev); cbn; now rewrite IH.
Qed.

Lemma pick_skip {A} (f : event -> option A) ev tr :
  f ev = None -> pick f (ev :: tr) = pick f tr.
Proof. intros E. cbn. now rewrite E. Qed.

Lemma pick_take {A} (f : event -> option A) ev a tr :
  f ev = Some a -> pick f (ev :: tr) = a :: pick f tr.
Proof. intros E. cbn. now rewrite E. Qed.

Lemma pick_none {A} (f : event -> option A) l :
  Forall (fun ev => f ev = None) l -> pick f l = [].
Proof.
  induction 1 as [|ev l Hev _ IH]; [reflexivity|].
  cbn [pick]. now rewrite Hev.
Qed.

Lemma pick_fifo_events {A} (f : event -> option A) e n k :
  (forall rx,
     f (EvSPIDataRW CHANNEL (Z.land (to_uint8 REG_FIFO) 0x7F) 0x00 rx) = None) ->
  (forall level, f (EvDigitalWrite ssPin level) = None) ->
  pick f (fifo_events e n k) = [].
Proof.
  intros Hspi Hdw. revert k. induction n as [|n IH]; intros k; [reflexivity|].
  cbn [fifo_events]. rewrite pick_app, IH. cbn [app pick].
  now rewrite !Hdw, Hspi.
Qed.

Lemma pick_dump_events {A} (f : event -> option A) msg n r :
  (forall i c, f (EvPrintf (MsgDump i c)) = None) ->
  pick f (dump_events msg n r) = [].
Proof.
  intros Hd. revert r. induction n as [|n IH]; intros r; [reflexivity|].
  cbn [dump_events]. rewrite pick_app, IH. cbn [app pick].
  now rewrite Hd.
Qed.

(** The first byte of a write has bit 7 set, that of a read has not. *)
Lemma lor_128_testbit a : Z.testbit (Z.lor a 0x80) 7 = true.
Proof.
  rewrite Z.lor_spec. change (Z.testbit 0x80 7) with true. apply orb_true_r.
Qed.

Lemma land_127_testbit a : Z.testbit (Z.land a 0x7F) 7 = false.
Proof.
  rewrite Z.land_spec. change (Z.testbit 0x7F 7) with false.
  apply andb_false_r.
Qed.

Lemma lor_128_not_version a : (Z.lor a 0x80 =? REG_VERSION) = false.
Proof.
  apply Z.eqb_neq. intros E.
  pose proof (lor_128_testbit a) as T. rewrite E in T. discriminate.
Qed.

Ltac obs_side :=
  cbv beta iota delta
    [as_reg_write as_version_read as_rst_write as_rxpk as_stat as_rssi
     as_rssi_read];
  rewrite ?lor_128_testbit, ?land_127_testbit, ?lor_128_not_version;
  reflexivity.

(** Walks an explicit trace, one event at a time. *)
Ltac observe :=
  repeat first [ rewrite pick_skip by obs_side
               | erewrite pick_take by obs_side
               | rewrite pick_app
               | rewrite pick_fifo_events by (intros; reflexivity)
               | rewrite pick_dump_events by (intros; reflexivity) ];
  cbn [pick rev app]; rewrite <- ?app_assoc; cbn [app].

(** *** Start-up *)

(** C8.  The set-up accepts the SX1272 exactly when the first read of
    the version register returns 0x22, after one reset pulse.  Otherwise
    it pulses reset once more and reads the version register a second
    time; it accepts the SX1276 exactly when that read returns 0x12.
    When neither read matches it returns -1 after exactly these two
    reads, having written no register. *)
Theorem chip_detection h e address mode channel power s :
  let v1 := miso_byte e (spi_n s) in
  let v2 := miso_byte e (S (spi_n s)) in
  exists r s',
    setupDraginoLoRa h e address mode channel power s = Some (r, s') /\
    if v1 =? 0x22 then
      r = 0 /\ is_sx1272 s' = true
      /\ version_reads (trace s') = version_reads (trace s) ++ [v1]
      /\ reset_writes (trace s') = reset_writes (trace s) ++ [HIGH; LOW]
    else if v2 =? 0x12 then
      r = 0 /\ is_sx1272 s' = false
      /\ version_reads (trace s') = version_reads (trace s) ++ [v1; v2]
      /\ reset_writes (trace s')
         = reset_writes (trace s) ++ [HIGH; LOW; LOW; HIGH]
    else
      r = -1 /\ is_sx1272 s' = is_sx1272 s
      /\ trace s' =
           [EvPrintf MsgUnrecognized;
            EvDigitalWrite ssPin HIGH;
            EvSPIDataRW CHANNEL REG_VERSION 0 v2;
            EvDigitalWrite ssPin LOW;
            EvDelay 100; EvDigitalWrite RST HIGH;
            EvDelay 100; EvDigitalWrite RST LOW;
            EvDigitalWrite ssPin HIGH;
            EvSPIDataRW CHANNEL REG_VERSION 0 v1;
            EvDigitalWrite ssPin LOW;
            EvDelay 100; EvDigitalWrite RST LOW;
            EvDelay 100; EvDigitalWrite RST HIGH;
            EvSPISetup CHANNEL 500000; EvPinMode RST OUTPUT;
            EvPinMode dio0 INPUT; EvPinMode ssPin OUTPUT; EvWiringPiSetup]
           ++ trace s.
Proof.
  intros v1 v2. subst v1 v2. unfold miso_byte.
  destruct s as [sx rb rcv ok fwd tm sf0 fq hw pkt snr pl sr sn dn rn cn tr].
  unfold setupDraginoLoRa, version_reads, reset_writes. exec.
  destruct (to_uint8 (spi_miso e sn) =? 34) eqn:E1; exec.
  - destruct ((sf0 =? SF11) || (sf0 =? SF12));
    destruct ((sf0 =? SF10) || (sf0 =? SF11) || (sf0 =? SF12));
    destruct (mode =? 1); exec;
    (eexists; eexists; split; [reflexivity|]); exec; observe;
    repeat split; reflexivity.
  - destruct (to_uint8 (spi_miso e (S sn)) =? 18) eqn:E2; exec.
    + destruct ((sf0 =? SF11) || (sf0 =? SF12));
      destruct ((sf0 =? SF10) || (sf0 =? SF11) || (sf0 =? SF12));
      destruct (mode =? 1); exec;
      (eexists; eexists; split; [reflexivity|]); exec; observe;
      repeat split; reflexivity.
    + eexists; eexists; split; [reflexivity|]. exec.
      repeat split; reflexivity.
Qed.

(** C1, as the code has it.  For every 32-bit frequency, when a chip is
    detected the first registers written are the operating mode (sleep)
    and then FRF MSB, MID and LSB, which receive
    [floor(hz * 2^19 / 32000000)] cut to 24 bits and split into bytes;
    for 865200000 Hz these bytes are D8 4C CC. *)
Theorem frf_registers_written h e address mode channel power s :
  0 <= freq s < 2 ^ 32 ->
  (miso_byte e (spi_n s) =? 0x22) || (miso_byte e (S (spi_n s)) =? 0x12)
  = true ->
  let '(msb, mid, lsb) := split24 (frf_floor (freq s)) in
  (exists s' rest,
    setupDraginoLoRa h e address mode channel power s = Some (0, s') /\
    register_writes (trace s') =
      register_writes (trace s)
      ++ (REG_OPMODE, SX72_MODE_SLEEP) :: (REG_FRF_MSB, msb)
         :: (REG_FRF_MID, mid) :: (REG_FRF_LSB, lsb) :: rest)
  /\ split24 (frf_floor 865200000) = (0xD8, 0x4C, 0xCC).
Proof.
  intros Hfreq Hdet.
  rewrite <- (frf_bytes_floor _ Hfreq). cbv beta iota.
  split; [|reflexivity].
  unfold miso_byte in Hdet.
  destruct s as [sx rb rcv ok fwd tm sf0 fq hw pkt snr pl sr sn dn rn cn tr].
  unfold setupDraginoLoRa, register_writes. exec. exec in Hdet.
  destruct (to_uint8 (spi_miso e sn) =? 34) eqn:E1; exec.
  - destruct ((sf0 =? SF11) || (sf0 =? SF12));
    destruct ((sf0 =? SF10) || (sf0 =? SF11) || (sf0 =? SF12));
    destruct (mode =? 1); exec;
    (eexists; eexists; split; [reflexivity|]); exec; observe;
    unfold frf_msb, frf_mid, frf_lsb; rewrite !to_uint8_idem;
    reflexivity.
  - cbn [orb] in Hdet. rewrite Hdet. exec.
    destruct ((sf0 =? SF11) || (sf0 =? SF12));
    destruct ((sf0 =? SF10) || (sf0 =? SF11) || (sf0 =? SF12));
    destruct (mode =? 1); exec;
    (eexists; eexists; split; [reflexivity|]); exec; observe;
    unfold frf_msb, frf_mid, frf_lsb; rewrite !to_uint8_idem;
    reflexivity.
Qed.

Lemma frf_registers_written_witness :
  0 <= freq sample_state < 2 ^ 32 /\
  (miso_byte (steady_env 0x22 0 1) (spi_n sample_state) =? 0x22)
  || (miso_byte (steady_env 0x22 0 1) (S (spi_n sample_state)) =? 0x12)
  = true /\
  let '(msb, mid, lsb) := split24 (frf_floor (freq sample_state)) in
  (exists s' rest,
    setupDraginoLoRa rfm96_regs (steady_env 0x22 0 1) 2 1 0 "H" sample_state
    = Some (0, s') /\
    register_writes (trace s') =
      register_writes (trace sample_state)
      ++ (REG_OPMODE, SX72_MODE_SLEEP) :: (REG_FRF_MSB, msb)
         :: (REG_FRF_MID, mid) :: (REG_FRF_LSB, lsb) :: rest)
  /\ split24 (frf_floor 865200000) = (0xD8, 0x4C, 0xCC).
Proof.
  split; [cbn; lia|]. split; [reflexivity|].
  apply (frf_registers_written rfm96_regs (steady_env 0x22 0 1) 2 1 0 "H"
           sample_state).
  - cbn. lia.
  - reflexivity.
Defined.

(** C1 as the specification states it fails at 865200000 Hz: the
    quotient is 14175436.8, the registers receive D8 4C CC, and the
    rounded value splits into D8 4C CD. *)
Lemma frf_registers_not_rounded :
  firstn 4
    (run_register_writes
       (setupDraginoLoRa rfm96_regs (steady_env 0x22 0 1) 2 1 0 "H"
          sample_state))
  = [(REG_OPMODE, SX72_MODE_SLEEP); (REG_FRF_MSB, 0xD8);
     (REG_FRF_MID, 0x4C); (REG_FRF_LSB, 0xCC)]
  /\ split24 (spec_frf_round 865200000) = (0xD8, 0x4C, 0xCD)
  /\ split24 (spec_frf_round (freq sample_state))
     <> (frf_msb (freq sample_state), frf_mid (freq sample_state),
         frf_lsb (freq sample_state)).
Proof.
  split; [vm_compute; reflexivity|].
  split; [vm_compute; reflexivity|].
  vm_compute. discriminate.
Qed.

(** C4, as the code has it: the byte 0x84 decodes to -31 and the byte
    0x08 to 2, both as a value and in a poll of a chip that answers
    every read with that byte. *)
Theorem decode_snr_scenarios :
  decode_snr 0x84 = -31 /\ decode_snr 0x08 = 2
  /\ option_map (fun rs => lora_snr (snd rs))
       (receiveDraginoPacket (steady_env 0x84 1 1) sample_state) = Some (-31)
  /\ option_map (fun rs => lora_snr (snd rs))
       (receiveDraginoPacket (steady_env 0x08 1 1) sample_state) = Some 2.
Proof. repeat split; vm_compute; reflexivity. Qed.

(** C4 as the specification states it fails: 0x84 does not decode to -1. *)
Lemma decode_snr_0x84_is_not_minus_1 : decode_snr 0x84 <> -1.
Proof. vm_compute. discriminate. Qed.

(** *** Stores into character arrays *)
Lemma pokes_fill P R idx src :
  Z.of_nat (length P) = idx ->
  (length src <= length R)%nat ->
  pokes (P ++ R) idx src = Some ((P ++ src) ++ skipn (length src) R).
Proof.
  intros HP Hfit. unfold pokes.
  replace ((0 <=? idx) && (idx + Z.of_nat (length src) <=? Z.of_nat (length (P ++ R))))
    with true.
  2:{ symmetry. apply andb_true_iff. split.
      - apply Z.leb_le. lia.
      - apply Z.leb_le. rewrite length_app. lia. }
  subst idx. rewrite Nat2Z.id.
  rewrite firstn_app, Nat.sub_diag, firstn_all. cbn [firstn].
  rewrite app_nil_r.
  rewrite skipn_app, skipn_all2 by lia. cbn [app].
  replace (length P + length src - length P)%nat with (length src) by lia.
  now rewrite <- app_assoc.
Qed.

Lemma lit_firstn s :
  firstn (length (lit s)) (lit s ++ [0]) = lit s.
Proof.
  rewrite firstn_app, Nat.sub_diag, firstn_all. cbn [firstn]. apply app_nil_r.
Qed.

Lemma memcpy_step cap P R idx s n :
  Z.of_nat (length P) = idx ->
  Z.of_nat (length R) = cap - idx ->
  n = Z.of_nat (length (lit s)) ->
  idx + n <= cap ->
  exists R',
    memcpy (P ++ R) idx s n = Some ((P ++ lit s) ++ R')
    /\ Z.of_nat (length (P ++ lit s)) = idx + n
    /\ Z.of_nat (length R') = cap - (idx + n).
Proof.
  intros HP HR Hn Hfit. exists (skipn (length (lit s)) R).
  unfold memcpy. subst n. rewrite Nat2Z.id, lit_firstn.
  rewrite pokes_fill by lia.
  rewrite length_app, length_skipn. repeat split; lia.
Qed.

Lemma poke_step cap P R idx c :
  Z.of_nat (length P) = idx ->
  Z.of_nat (length R) = cap - idx ->
  0 <= c < 256 ->
  idx + 1 <= cap ->
  exists R',
    poke (P ++ R) idx c = Some ((P ++ [c]) ++ R')
    /\ Z.of_nat (length (P ++ [c])) = idx + 1
    /\ Z.of_nat (length R') = cap - (idx + 1).
Proof.
  intros HP HR Hc Hfit. exists (skipn 1 R).
  unfold poke. rewrite to_uint8_small by assumption.
  rewrite pokes_fill by (cbn [length]; lia).
  rewrite length_app, length_skipn. cbn [length]. repeat split; lia.
Qed.

Lemma snprintf_step cap P R idx text :
  Z.of_nat (length P) = idx ->
  Z.of_nat (length R) = cap - idx ->
  cap < 2 ^ 32 ->
  idx + Z.of_nat (length text) < cap ->
  exists R',
    snprintf (P ++ R) idx (cap - idx) text
    = Some ((P ++ text) ++ R', Z.of_nat (length text))
    /\ Z.of_nat (length (P ++ text)) = idx + Z.of_nat (length text)
    /\ Z.of_nat (length R') = cap - (idx + Z.of_nat (length text))
    /\ nth 0 R' 1 = 0.
Proof.
  intros HP HR Hcap Hfit. exists (0 :: skipn (S (length text)) R).
  unfold snprintf, to_size_t.
  rewrite Z.mod_small by lia.
  replace (cap - idx =? 0) with false by (symmetry; apply Z.eqb_neq; lia).
  rewrite firstn_all2 by lia.
  rewrite pokes_fill by (rewrite ?length_app; cbn [length]; lia).
  rewrite length_app. cbn [length]. rewrite Nat.add_1_r.
  rewrite <- !app_assoc. cbn [app].
  rewrite length_app, length_skipn. repeat split; lia.
Qed.

Lemma dec_digits_length fuel n : (length (dec_digits fuel n) <= fuel)%nat.
Proof.
  revert n. induction fuel as [|f IH]; intros n; cbn [dec_digits length]; [lia|].
  rewrite length_app. cbn [length].
  destruct (n <? 10); cbn [length]; [lia|]. specialize (IH (n / 10)). lia.
Qed.

Lemma fixed_digits_length w n : length (fixed_digits w n) = w.
Proof.
  revert n. induction w as [|w IH]; intros n; cbn [fixed_digits length]; [reflexivity|].
  rewrite length_app, IH. cbn [length]. lia.
Qed.

Lemma fmt_u_length n : Z.of_nat (length (fmt_u n)) <= 10.
Proof. unfold fmt_u. pose proof (dec_digits_length 10 n). lia. Qed.

Lemma fmt_d_length n : Z.of_nat (length (fmt_d n)) <= 11.
Proof.
  unfold fmt_d. destruct (n <? 0); cbn [length].
  - pose proof (fmt_u_length (- n)). lia.
  - pose proof (fmt_u_length n). lia.
Qed.

Lemma fmt_mhz_length hz : Z.of_nat (length (fmt_mhz hz)) <= 17.
Proof.
  unfold fmt_mhz. rewrite !length_app, fixed_digits_length. cbn [length].
  pose proof (fmt_u_length (hz / 1000000)). lia.
Qed.

Lemma datr_literal_length sf :
  snd (datr_literal sf) = Z.of_nat (length (lit (fst (datr_literal sf))))
  /\ snd (datr_literal sf) <= 13.
Proof.
  unfold datr_literal.
  repeat match goal with |- context [if ?c then _ else _] => destruct c end;
  cbn [fst snd]; split; (reflexivity || lia).
Qed.

Lemma buff_up_uninitialised_length e :
  Z.of_nat (length (buff_up_uninitialised e)) = 2048.
Proof.
  unfold buff_up_uninitialised. rewrite length_map, length_seq. reflexivity.
Qed.

Lemma dumpMessage_loop_run msg n r s :
  dumpMessage_loop msg n r s
  = Some (tt, set_trace (dump_events msg n r ++ trace s) s).
Proof.
  revert r s. induction n as [|n IH]; intros r s.
  - destruct s; reflexivity.
  - cbn [dumpMessage_loop dump_events]. exec.
    rewrite IH. exec. rewrite <- app_assoc. reflexivity.
Qed.

Lemma dumpMessage_run msg len s :
  dumpMessage msg len s
  = Some (tt, set_trace (dump_events msg (Z.to_nat len) 0 ++ trace s) s).
Proof. apply dumpMessage_loop_run. Qed.

(** A store into an explicit prefix. *)
Lemma poke_at (pre : list Z) x post i c :
  Z.of_nat (length pre) = i ->
  poke (pre ++ x :: post) i c = Some (pre ++ to_uint8 c :: post).
Proof.
  intros Hi. unfold poke.
  rewrite pokes_fill by (cbn [length]; lia).
  rewrite <- app_assoc. reflexivity.
Qed.
Lemma poke_0 x0 R c :
  poke (x0 :: R) 0 c = Some (to_uint8 c :: R).
Proof. exact (poke_at [] x0 R 0 c eq_refl). Qed.

Lemma poke_1 x0 x1 R c :
  poke (x0 :: x1 :: R) 1 c = Some (x0 :: to_uint8 c :: R).
Proof. exact (poke_at [x0] x1 R 1 c eq_refl). Qed.

Lemma poke_2 x0 x1 x2 R c :
  poke (x0 :: x1 :: x2 :: R) 2 c = Some (x0 :: x1 :: to_uint8 c :: R).
Proof. exact (poke_at [x0; x1] x2 R 2 c eq_refl). Qed.

Lemma poke_3 x0 x1 x2 x3 R c :
  poke (x0 :: x1 :: x2 :: x3 :: R) 3 c = Some (x0 :: x1 :: x2 :: to_uint8 c :: R).
Proof. exact (poke_at [x0; x1; x2] x3 R 3 c eq_refl). Qed.

Lemma poke_4 x0 x1 x2 x3 x4 R c :
  poke (x0 :: x1 :: x2 :: x3 :: x4 :: R) 4 c = Some (x0 :: x1 :: x2 :: x3 :: to_uint8 c :: R).
Proof. exact (poke_at [x0; x1; x2; x3] x4 R 4 c eq_refl). Qed.

Lemma poke_5 x0 x1 x2 x3 x4 x5 R c :
  poke (x0 :: x1 :: x2 :: x3 :: x4 :: x5 :: R) 5 c = Some (x0 :: x1 :: x2 :: x3 :: x4 :: to_uint8 c :: R).
Proof. exact (poke_at [x0; x1; x2; x3; x4] x5 R 5 c eq_refl). Qed.

Lemma poke_6 x0 x1 x2 x3 x4 x5 x6 R c :
  poke (x0 :: x1 :: x2 :: x3 :: x4 :: x5 :: x6 :: R) 6 c = Some (x0 :: x1 :: x2 :: x3 :: x4 :: x5 :: to_uint8 c :: R).
Proof. exact (poke_at [x0; x1; x2; x3; x4; x5] x6 R 6 c eq_refl). Qed.

Lemma poke_7 x0 x1 x2 x3 x4 x5 x6 x7 R c :
  poke (x0 :: x1 :: x2 :: x3 :: x4 :: x5 :: x6 :: x7 :: R) 7 c = Some (x0 :: x1 :: x2 :: x3 :: x4 :: x5 :: x6 :: to_uint8 c :: R).
Proof. exact (poke_at [x0; x1; x2; x3; x4; x5; x6] x7 R 7 c eq_refl). Qed.

Lemma poke_8 x0 x1 x2 x3 x4 x5 x6 x7 x8 R c :
  poke (x0 :: x1 :: x2 :: x3 :: x4 :: x5 :: x6 :: x7 :: x8 :: R) 8 c = Some (x0 :: x1 :: x2 :: x3 :: x4 :: x5 :: x6 :: x7 :: to_uint8 c :: R).
Proof. exact (poke_at [x0; x1; x2; x3; x4; x5; x6; x7] x8 R 8 c eq_refl). Qed.

Lemma poke_9 x0 x1 x2 x3 x4 x5 x6 x7 x8 x9 R c :
  poke (x0 :: x1 :: x2 :: x3 :: x4 :: x5 :: x6 :: x7 :: x8 :: x9 :: R) 9 c = Some (x0 :: x1 :: x2 :: x3 :: x4 :: x5 :: x6 :: x7 :: x8 :: to_uint8 c :: R).
Proof. exact (poke_at [x0; x1; x2; x3; x4; x5; x6; x7; x8] x9 R 9 c eq_refl). Qed.

Lemma poke_10 x0 x1 x2 x3 x4 x5 x6 x7 x8 x9 x10 R c :
  poke (x0 :: x1 :: x2 :: x3 :: x4 :: x5 :: x6 :: x7 :: x8 :: x9 :: x10 :: R) 10 c = Some (x0 :: x1 :: x2 :: x3 :: x4 :: x5 :: x6 :: x7 :: x8 :: x9 :: to_uint8 c :: R).
Proof. exact (poke_at [x0; x1; x2; x3; x4; x5; x6; x7; x8; x9] x10 R 10 c eq_refl). Qed.

Lemma poke_11 x0 x1 x2 x3 x4 x5 x6 x7 x8 x9 x10 x11 R c :
  poke (x0 :: x1 :: x2 :: x3 :: x4 :: x5 :: x6 :: x7 :: x8 :: x9 :: x10 :: x11 :: R) 11 c = Some (x0 :: x1 :: x2 :: x3 :: x4 :: x5 :: x6 :: x7 :: x8 :: x9 :: x10 :: to_uint8 c :: R).
Proof. exact (poke_at [x0; x1; x2; x3; x4; x5; x6; x7; x8; x9; x10] x11 R 11 c eq_refl). Qed.

Ltac header_pokes :=
  rewrite poke_0; exec; rewrite poke_3; exec;
  rewrite poke_4; exec; rewrite poke_5; exec; rewrite poke_6; exec;
  rewrite poke_7; exec; rewrite poke_8; exec; rewrite poke_9; exec;
  rewrite poke_10; exec; rewrite poke_11; exec;
  rewrite poke_1; exec; rewrite poke_2; exec.

Ltac split_buffer b :=
  let pre := eval lazy beta iota delta [firstn] in (firstn 12 b) in
  let post := eval lazy beta iota delta [skipn] in (skipn 12 b) in
  change b with (pre ++ post).

Ltac lit_lengths :=
  repeat match goal with
         | |- context [length (lit ?s)] =>
             let n := eval vm_compute in (length (lit s)) in
             change (length (lit s)) with n
         end.

Ltac len_norm :=
  rewrite ?length_app in *;
  repeat match goal with
         | |- context [length (lit ?s)] =>
             let n := eval vm_compute in (length (lit s)) in
             change (length (lit s)) with n in *
         | H : context [length (lit ?s)] |- _ =>
             let n := eval vm_compute in (length (lit s)) in
             change (length (lit s)) with n in *
         end;
  cbn [length] in *.

Ltac len_side := solve [len_norm; lia].

Ltac fill_poke cap :=
  match goal with
  | HP : Z.of_nat (length ?P) = ?idx, HR : Z.of_nat (length ?R) = cap - ?idx
    |- context [poke (?P ++ ?R) ?idx ?c] =>
      let R' := fresh "R" in
      let HP' := fresh "HP" in
      let HR' := fresh "HR" in
      let E := fresh "E" in
      destruct (poke_step cap P R idx c HP HR) as (R' & E & HP' & HR');
      [ lia | len_side
      | rewrite E; clear E HP HR; clear R ]
  end.

Ltac fill_memcpy cap :=
  match goal with
  | HP : Z.of_nat (length ?P) = ?idx, HR : Z.of_nat (length ?R) = cap - ?idx
    |- context [memcpy (?P ++ ?R) ?idx ?s ?n] =>
      let R' := fresh "R" in
      let HP' := fresh "HP" in
      let HR' := fresh "HR" in
      let E := fresh "E" in
      destruct (memcpy_step cap P R idx s n HP HR) as (R' & E & HP' & HR');
      [ first [ vm_compute; reflexivity | assumption ] | len_side
      | rewrite E; clear E HP HR; clear R ]
  end.

Ltac fill_snprintf cap :=
  match goal with
  | HP : Z.of_nat (length ?P) = ?idx, HR : Z.of_nat (length ?R) = cap - ?idx
    |- context [snprintf (?P ++ ?R) ?idx (cap - ?idx) ?text] =>
      let R' := fresh "R" in
      let HP' := fresh "HP" in
      let HR' := fresh "HR" in
      let E := fresh "E" in
      let N := fresh "N" in
      destruct (snprintf_step cap P R idx text HP HR)
        as (R' & E & HP' & HR' & N);
      [ lia | len_side
      | rewrite E; clear E HP HR N; clear R ]
  end.

Lemma compose_rxpk_run e corr s :
  exists R,
    compose_rxpk e corr s
    = Some ((compose_header e s ++ compose_json e corr s) ++ 0 :: R,
            12 + Z.of_nat (length (compose_json e corr s)),
            after_compose e s)
    /\ Z.of_nat (length R)
       = 2048 - 12 - Z.of_nat (length (compose_json e corr s)) - 1.
Proof.
  destruct s as [sx rb rcv ok fwd tm sf0 fq hw pkt snr pl sr sn dn rn cn tr].
  unfold compose_rxpk, compose_header, compose_json, after_compose, rxpk_json.
  cbn [sf].
  pose proof (buff_up_uninitialised_length e) as Hlen.
  destruct (buff_up_uninitialised e) as [|x0 b]; [cbn [length] in Hlen; lia|].
  do 11 (destruct b as [|? b]; [cbn [length] in Hlen; lia|]).
  assert (HR : Z.of_nat (length b) = 2048 - 12) by (cbn [length] in Hlen; lia).
  clear Hlen.
  exec. header_pokes.
  match goal with |- context [memcpy ?b 12 _ _] => split_buffer b end.
  match goal with |- context [memcpy (?P ++ _) 12 _ _] =>
    set (P0 := P); assert (HP : Z.of_nat (length P0) = 12) by reflexivity
  end.
  change TX_BUFF_SIZE with 2048.
  set (tmst := to_uint32 (clock_sec e cn * 1000000 + clock_usec e cn)).
  unfold miso_byte.
  set (raw := to_uint8 (spi_miso e sn)).
  pose proof (fmt_u_length tmst) as B1.
  pose proof (fmt_u_length 0) as B2.
  pose proof (fmt_mhz_length fq) as B3.
  pose proof (fmt_d_length snr) as B4.
  pose proof (fmt_d_length (raw - corr)) as B5.
  pose proof (fmt_u_length rb) as B6.
  fill_memcpy 2048. exec.
  fill_poke 2048. exec.
  fill_snprintf 2048. exec.
  fill_snprintf 2048. exec.
  fill_memcpy 2048. exec.
  fill_memcpy 2048. exec.
  destruct (datr_literal_length sf0) as [D1 D2].
  destruct (datr_literal sf0) as [datr datr_n]. cbn [fst snd] in D1, D2.
  exec.
  fill_memcpy 2048. exec.
  fill_memcpy 2048. exec.
  fill_memcpy 2048. exec.
  fill_snprintf 2048. exec.
  fold raw.
  fill_snprintf 2048. exec.
  fill_memcpy 2048. exec.
  rewrite dumpMessage_run. exec.
  rewrite !Z.add_0_r.
  fill_poke 2048. exec.
  fill_poke 2048. exec.
  fill_poke 2048. exec.
  fill_poke 2048. exec.
  fill_poke 2048. exec.
  match goal with HR : Z.of_nat (length ?R) = _ |- _ => exists R end.
  assert (EP : P0 = frame_header (to_uint8 (rand_value e rn))
                      (to_uint8 (rand_value e (S rn)))
                      (fun i : nat => to_uint8 (nth i hw 0))).
  { subst P0. unfold frame_header. rewrite !to_uint8_idem. reflexivity. }
  split.
  - apply f_equal. apply f_equal2; [apply f_equal2|reflexivity].
    + rewrite <- EP. rewrite <- !app_assoc. reflexivity.
    + clear EP. len_norm. lia.
  - clear EP. len_norm. lia.
Qed.


(** *** Texts without a terminator *)
Lemma no_nul_app a b : no_nul (a ++ b) = no_nul a && no_nul b.
Proof. apply forallb_app. Qed.

Lemma no_nul_digit n : negb (48 + n mod 10 =? 0) = true.
Proof.
  apply negb_true_iff, Z.eqb_neq.
  pose proof (Z.mod_pos_bound n 10 ltac:(lia)). lia.
Qed.

Lemma no_nul_dec_digits fuel n : no_nul (dec_digits fuel n) = true.
Proof.
  revert n. induction fuel as [|f IH]; intros n; [reflexivity|].
  cbn [dec_digits]. rewrite no_nul_app.
  apply andb_true_iff. split.
  - destruct (n <? 10); [reflexivity|apply IH].
  - unfold no_nul. cbn [forallb]. now rewrite no_nul_digit.
Qed.

Lemma no_nul_fixed_digits w n : no_nul (fixed_digits w n) = true.
Proof.
  revert n. induction w as [|w IH]; intros n; [reflexivity|].
  cbn [fixed_digits]. rewrite no_nul_app, IH.
  unfold no_nul. cbn [forallb]. now rewrite no_nul_digit.
Qed.

Lemma no_nul_fmt_u n : no_nul (fmt_u n) = true.
Proof. apply no_nul_dec_digits. Qed.

Lemma no_nul_fmt_d n : no_nul (fmt_d n) = true.
Proof.
  unfold fmt_d. destruct (n <? 0); [|apply no_nul_fmt_u].
  unfold no_nul. cbn [forallb]. apply no_nul_fmt_u.
Qed.

Lemma no_nul_fmt_mhz hz : no_nul (fmt_mhz hz) = true.
Proof.
  unfold fmt_mhz.
  now rewrite !no_nul_app, no_nul_fmt_u, no_nul_fixed_digits.
Qed.

Lemma no_nul_c_string l : no_nul (c_string l) = true.
Proof.
  induction l as [|c l IH]; [reflexivity|].
  cbn [c_string]. destruct (c =? 0) eqn:E; [reflexivity|].
  unfold no_nul. cbn [forallb]. rewrite E. exact IH.
Qed.

Lemma no_nul_firstn n l : no_nul l = true -> no_nul (firstn n l) = true.
Proof.
  revert l. induction n as [|n IH]; intros [|c l] H; try reflexivity.
  unfold no_nul in *. cbn [firstn forallb] in *.
  apply andb_true_iff in H. destruct H as [Hc Hl].
  rewrite Hc. now apply IH.
Qed.

Lemma no_nul_datr sf : no_nul (lit (fst (datr_literal sf))) = true.
Proof.
  unfold datr_literal.
  repeat match goal with |- context [if ?c then _ else _] => destruct c end;
  reflexivity.
Qed.

Lemma no_nul_strftime_24 e t : no_nul (strftime_24 e t) = true.
Proof. apply no_nul_firstn, no_nul_c_string. Qed.

Ltac no_nul_lits :=
  repeat match goal with
         | |- context [no_nul (lit ?s)] =>
             change (no_nul (lit s)) with true
         end.

Lemma no_nul_rxpk_json tmst hz sf snr rssi size :
  no_nul (rxpk_json tmst hz sf snr rssi size) = true.
Proof.
  unfold rxpk_json.
  rewrite !no_nul_app, !no_nul_fmt_u, !no_nul_fmt_d, no_nul_fmt_mhz,
    no_nul_datr.
  reflexivity.
Qed.

Lemma no_nul_stat_json stamp a rxnb rxok rxfw :
  no_nul stamp = true -> no_nul (stat_json stamp a rxnb rxok rxfw) = true.
Proof.
  intros H. unfold stat_json.
  rewrite !no_nul_app, !no_nul_fmt_u, !no_nul_fmt_d, H.
  reflexivity.
Qed.

Lemma c_string_text J R : no_nul J = true -> c_string (J ++ 0 :: R) = J.
Proof.
  induction J as [|c J IH]; intros H; [reflexivity|].
  unfold no_nul in H. cbn [forallb] in H.
  apply andb_true_iff in H. destruct H as [Hc HJ].
  cbn [app c_string]. apply negb_true_iff in Hc. rewrite Hc.
  f_equal. now apply IH.
Qed.

Lemma c_string_frame H J R :
  length H = 12%nat -> no_nul J = true ->
  c_string (skipn 12 ((H ++ J) ++ 0 :: R)) = J.
Proof.
  intros HH HJ. rewrite <- app_assoc.
  rewrite skipn_app, skipn_all2 by lia. rewrite HH. cbn [app skipn Nat.sub].
  now apply c_string_text.
Qed.

Lemma stat_json_length stamp a rxnb rxok rxfw :
  Z.of_nat (length stamp) <= 23 ->
  Z.of_nat (length (stat_json stamp a rxnb rxok rxfw)) <= 250.
Proof.
  intros H. unfold stat_json.
  pose proof (fmt_d_length a). pose proof (fmt_u_length rxnb).
  pose proof (fmt_u_length rxok). pose proof (fmt_u_length rxfw).
  pose proof (fmt_u_length 0).
  len_norm. lia.
Qed.

Lemma strftime_24_length e t : Z.of_nat (length (strftime_24 e t)) <= 23.
Proof. unfold strftime_24. rewrite length_firstn. lia. Qed.

Lemma sendstat_run e s :
  Z.of_nat (length (status_report s)) = 1024 ->
  exists R,
    sendstat e s = Some (tt, after_sendstat e s R)
    /\ Z.of_nat (length R)
       = 1024 - 12 - Z.of_nat (length (stat_text e s)) - 1.
Proof.
  destruct s as [sx rb rcv ok fwd tm sf0 fq hw pkt snr pl sr sn dn rn cn tr].
  cbn [status_report]. intros Hlen.
  unfold sendstat, after_sendstat, compose_header.
  assert (Hnn : no_nul (stat_text e
            (mkState sx rb rcv ok fwd tm sf0 fq hw pkt snr pl sr sn dn rn cn tr)) = true)
    by apply no_nul_stat_json, no_nul_strftime_24.
  assert (Hb : Z.of_nat (length (stat_text e
            (mkState sx rb rcv ok fwd tm sf0 fq hw pkt snr pl sr sn dn rn cn tr))) <= 250)
    by apply stat_json_length, strftime_24_length.
  unfold stat_text in *. cbn [clock_n cp_nb_rx_rcv cp_nb_rx_ok cp_up_pkt_fwd] in *.
  set (J := stat_json _ _ _ _ _) in *.
  destruct sr as [|x0 b]; [cbn [length] in Hlen; lia|].
  do 11 (destruct b as [|? b]; [cbn [length] in Hlen; lia|]).
  assert (HR : Z.of_nat (length b) = 1024 - 12) by (cbn [length] in Hlen; lia).
  clear Hlen.
  exec. header_pokes.
  change STATUS_SIZE with 1024.
  match goal with |- context [snprintf ?b 12 _ _] => split_buffer b end.
  match goal with |- context [snprintf (?P ++ _) 12 _ _] =>
    set (P0 := P); assert (HP : Z.of_nat (length P0) = 12) by reflexivity
  end.
  fold J.
  fill_snprintf 1024. exec.
  fill_poke 1024. exec.
  match goal with HR : Z.of_nat (length ?R) = _ |- _ => exists R end.
  assert (EP : P0 = frame_header (to_uint8 (rand_value e rn))
                      (to_uint8 (rand_value e (S rn)))
                      (fun i : nat => to_uint8 (nth i hw 0))).
  { subst P0. unfold frame_header. rewrite !to_uint8_idem. reflexivity. }
  rewrite <- EP.
  rewrite <- (app_assoc (P0 ++ J) [0]). cbn [app].
  rewrite c_string_frame by (assumption || (subst P0; reflexivity)).
  split; [reflexivity|]. lia.
Qed.

(** *** Polling *)

Lemma receivePkt_loop_run e n i s :
  0 <= i ->
  i + Z.of_nat n <= Z.of_nat (length (lora_packet s)) ->
  exists p',
    receivePkt_loop e n i s
    = Some (tt, set_trace (fifo_events e n (spi_n s) ++ trace s)
                  (set_lora_packet p' (set_spi_n (n + spi_n s) s)))
    /\ length p' = length (lora_packet s).
Proof.
  revert i s. induction n as [|n IH]; intros i s Hi Hfit.
  - exists (lora_packet s). destruct s; split; reflexivity.
  - destruct s as [sx rb rcv ok fwd tm sf0 fq hw pkt snr pl sr sn dn rn cn tr].
    cbn [lora_packet spi_n trace] in *.
    cbn [receivePkt_loop fifo_events]. exec.
    unfold poke, pokes.
    replace ((0 <=? i) && (i + Z.of_nat (length [to_uint8 (to_uint8 (spi_miso e sn))])
                           <=? Z.of_nat (length pkt))) with true
      by (symmetry; apply andb_true_iff; split; apply Z.leb_le; cbn [length]; lia).
    exec.
    match goal with |- context [receivePkt_loop e n (i + 1) ?s1] =>
      destruct (IH (i + 1) s1) as (p' & E & Hp')
    end.
    + lia.
    + cbn [lora_packet]. rewrite !length_app, length_firstn, length_skipn.
      cbn [length]. lia.
    + exists p'. rewrite E. exec. cbn [lora_packet] in Hp'.
      split.
      * rewrite <- app_assoc. rewrite Nat.add_succ_r. reflexivity.
      * rewrite Hp'. rewrite !length_app, length_firstn, length_skipn.
        cbn [length]. lia.
Qed.

Lemma crc_flag_bit b :
  0 <= b < 256 -> (Z.land b 0x20 =? 0x20) = Z.testbit b 5.
Proof.
  intros Hb.
  pose proof (byte_cases
                (fun b => Bool.eqb (Z.land b 0x20 =? 0x20) (Z.testbit b 5))) as H.
  apply Bool.eqb_prop. apply H; [vm_compute; reflexivity|assumption].
Qed.

Lemma good_poll_run e s :
  gpio_level e (dio_n s) = 1 ->
  Z.testbit (miso_byte e (S (spi_n s))) 5 = false ->
  255 <= Z.of_nat (length (lora_packet s)) ->
  let corr := rssicorr_of (is_sx1272 s) in
  exists s' raw_snr raw1 raw2 raw3 tmst size,
    receiveDraginoPacket e s = Some (0, s')
    /\ cp_nb_rx_rcv s' = to_uint32 (cp_nb_rx_rcv s + 1)
    /\ cp_nb_rx_ok s' = to_uint32 (cp_nb_rx_ok s + 1)
    /\ is_byte raw_snr /\ lora_snr s' = decode_snr raw_snr
    /\ rssi_reads (trace s') = rssi_reads (trace s) ++ [raw1; raw2; raw3]
    /\ printed_rssi (trace s')
       = printed_rssi (trace s) ++ [raw1 - corr; raw2 - corr]
    /\ uplink_frames (trace s')
       = rxpk_json tmst (freq s) (sf s) (decode_snr raw_snr) (raw3 - corr) size
         :: uplink_frames (trace s).
Proof.
  destruct s as [sx rb rcv ok fwd tm sf0 fq hw pkt snr pl sr sn dn rn cn tr].
  cbn [dio_n spi_n lora_packet is_sx1272 cp_nb_rx_rcv cp_nb_rx_ok trace freq sf].
  intros Hdio Hcrc Hcap.
  unfold receiveDraginoPacket. exec. rewrite Hdio.
  change (1 =? 1) with true. exec.
  unfold receivePkt. exec.
  unfold miso_byte in Hcrc.
  rewrite crc_flag_bit by apply to_uint8_range. rewrite Hcrc. exec.
  set (cnt := to_uint8 (spi_miso e (S (S (S sn))))).
  assert (Hcnt : 0 <= cnt < 256) by apply to_uint8_range.
  match goal with |- context [receivePkt_loop e ?n ?i ?s1] =>
    destruct (receivePkt_loop_run e n i s1) as (p' & E & Hp')
  end.
  { lia. }
  { cbn [lora_packet]. lia. }
  rewrite E. clear E. exec.
  match goal with |- context [compose_rxpk e ?c ?s1] =>
    destruct (compose_rxpk_run e c s1) as (R & E & HR)
  end.
  rewrite E. clear E. exec.
  rewrite c_string_frame by (reflexivity || apply no_nul_rxpk_json).
  unfold after_compose, compose_json. exec.
  do 7 eexists.
  split; [reflexivity|]. exec.
  unfold rssi_reads, printed_rssi, uplink_frames, read_events.
  observe.
  split; [reflexivity|]. split; [reflexivity|].
  split; [|split; [reflexivity|]].
  - apply to_uint8_range.
  - split; [reflexivity|]. split; reflexivity.
Qed.

Lemma crc_poll_run e s :
  gpio_level e (dio_n s) = 1 ->
  Z.testbit (miso_byte e (S (spi_n s))) 5 = true ->
  exists s',
    receiveDraginoPacket e s = Some (1, s')
    /\ cp_nb_rx_rcv s' = to_uint32 (cp_nb_rx_rcv s + 1)
    /\ cp_nb_rx_ok s' = cp_nb_rx_ok s
    /\ uplink_frames (trace s') = uplink_frames (trace s).
Proof.
  destruct s as [sx rb rcv ok fwd tm sf0 fq hw pkt snr pl sr sn dn rn cn tr].
  cbn [dio_n spi_n lora_packet is_sx1272 cp_nb_rx_rcv cp_nb_rx_ok trace freq sf].
  intros Hdio Hcrc.
  unfold receiveDraginoPacket. exec. rewrite Hdio.
  change (1 =? 1) with true. exec.
  unfold receivePkt. exec.
  unfold miso_byte in Hcrc.
  rewrite crc_flag_bit by apply to_uint8_range. rewrite Hcrc. exec.
  eexists. split; [reflexivity|]. exec.
  unfold uplink_frames. observe. repeat split; reflexivity.
Qed.

(** C7.  In a poll that accepts a frame, each value printed as RSSI and
    the [rssi] field of the uplink frame is the byte read from the RSSI
    register minus 139 when the detected chip is the SX1272 and minus
    157 when it is the SX1276. *)
Theorem rssi_offsets e s :
  gpio_level e (dio_n s) = 1 ->
  Z.testbit (miso_byte e (S (spi_n s))) 5 = false ->
  255 <= Z.of_nat (length (lora_packet s)) ->
  let offset := if is_sx1272 s then 139 else 157 in
  exists s' raw1 raw2 raw3 tmst snr size,
    receiveDraginoPacket e s = Some (0, s')
    /\ rssi_reads (trace s') = rssi_reads (trace s) ++ [raw1; raw2; raw3]
    /\ printed_rssi (trace s')
       = printed_rssi (trace s) ++ [raw1 - offset; raw2 - offset]
    /\ uplink_frames (trace s')
       = rxpk_json tmst (freq s) (sf s) snr (raw3 - offset) size
         :: uplink_frames (trace s).
Proof.
  intros Hdio Hcrc Hcap offset.
  destruct (good_poll_run e s Hdio Hcrc Hcap)
    as (s' & raw_snr & raw1 & raw2 & raw3 & tmst & size & E & _ & _
        & _ & _ & Hreads & Hprint & Hup).
  exists s', raw1, raw2, raw3, tmst, (decode_snr raw_snr), size.
  repeat split; assumption.
Qed.

(** *** What the poll leaves alone *)

Lemma keeps_ret {A} (a : A) : keeps (ret a).
Proof. intros s a' s' E. injection E as <- <-. repeat split. Qed.

Lemma keeps_bind {A B} (c : M A) (k : A -> M B) :
  keeps c -> (forall a, keeps (k a)) -> keeps (bind c k).
Proof.
  intros Hc Hk s b s' E. unfold bind in E.
  destruct (c s) as [[a s1]|] eqn:Ec; [|discriminate].
  destruct (Hc _ _ _ Ec) as (F1 & S1 & T1).
  destruct (Hk a _ _ _ E) as (F2 & S2 & T2).
  repeat split; congruence.
Qed.

Lemma keeps_get : keeps get.
Proof. intros s a s' E. injection E as <- <-. repeat split. Qed.

Lemma keeps_lift_option {A} (o : option A) : keeps (lift_option o).
Proof.
  intros s a s' E. unfold lift_option in E.
  destruct o; [|discriminate]. injection E as <- <-. repeat split.
Qed.

Lemma keeps_modify (f : state -> state) :
  (forall s, cp_up_pkt_fwd (f s) = cp_up_pkt_fwd s
             /\ status_report (f s) = status_report s
             /\ trace (f s) = trace s) ->
  keeps (modify f).
Proof.
  intros Hf s a s' E. injection E as <- <-.
  destruct (Hf s) as (F & S & T). unfold stat_frames. rewrite T. repeat split; assumption.
Qed.

Lemma keeps_emit ev : as_stat ev = None -> keeps (emit ev).
Proof.
  intros Hev s a s' E. injection E as <- <-.
  destruct s. cbn. unfold stat_frames. cbn [pick]. rewrite Hev. repeat split.
Qed.

Ltac keeps_step :=
  lazymatch goal with
  | |- keeps (ret _) => apply keeps_ret
  | |- keeps get => apply keeps_get
  | |- keeps (lift_option _) => apply keeps_lift_option
  | |- keeps (emit _) => apply keeps_emit; reflexivity
  | |- keeps (modify _) =>
      apply keeps_modify; intros []; repeat split; reflexivity
  | |- keeps (bind _ _) => apply keeps_bind; [|intros ?]
  | |- keeps (if ?c then _ else _) => destruct c
  | |- keeps (match ?c with _ => _ end) => destruct c
  end.

Ltac keeps_tac := repeat keeps_step.

Lemma keeps_digitalWrite pin level : keeps (digitalWrite pin level).
Proof. unfold digitalWrite. keeps_tac. Qed.

Lemma keeps_wiringPiSPIDataRW e c a b : keeps (wiringPiSPIDataRW e c a b).
Proof. unfold wiringPiSPIDataRW. keeps_tac. Qed.

Lemma keeps_readDraginoRegister e addr : keeps (readDraginoRegister e addr).
Proof.
  unfold readDraginoRegister, selectreceiver, unselectreceiver.
  cbv zeta.
  repeat first [ apply keeps_digitalWrite | apply keeps_wiringPiSPIDataRW
               | keeps_step ].
Qed.

Lemma keeps_writeDraginoRegister e addr v :
  keeps (writeDraginoRegister e addr v).
Proof.
  unfold writeDraginoRegister, selectreceiver, unselectreceiver.
  cbv zeta.
  repeat first [ apply keeps_digitalWrite | apply keeps_wiringPiSPIDataRW
               | keeps_step ].
Qed.

Lemma keeps_store_payload i c : keeps (store_payload i c).
Proof. unfold store_payload. keeps_tac. Qed.

Lemma keeps_receivePkt_loop e n i : keeps (receivePkt_loop e n i).
Proof.
  revert i. induction n as [|n IH]; intros i; cbn [receivePkt_loop].
  - keeps_tac.
  - apply keeps_bind; [apply keeps_readDraginoRegister|intros c].
    apply keeps_bind; [apply keeps_store_payload|intros _; apply IH].
Qed.

Ltac keeps_call :=
  lazymatch goal with
  | |- keeps (readDraginoRegister _ _) => apply keeps_readDraginoRegister
  | |- keeps (writeDraginoRegister _ _ _) => apply keeps_writeDraginoRegister
  | |- keeps (receivePkt_loop _ _ _) => apply keeps_receivePkt_loop
  | |- keeps (digitalWrite _ _) => apply keeps_digitalWrite
  | |- _ => keeps_step
  end.

Lemma keeps_receivePkt e : keeps (receivePkt e).
Proof. unfold receivePkt. repeat keeps_call. Qed.

Lemma keeps_dumpMessage msg len : keeps (dumpMessage msg len).
Proof.
  unfold dumpMessage. generalize 0 as r.
  induction (Z.to_nat len) as [|n IH]; intros r; cbn [dumpMessage_loop].
  - keeps_tac.
  - apply keeps_bind; [keeps_tac|intros _; apply IH].
Qed.

Lemma keeps_rand e : keeps (rand e).
Proof. unfold rand. keeps_tac. Qed.

Lemma keeps_gettimeofday e : keeps (gettimeofday e).
Proof. unfold gettimeofday. keeps_tac. Qed.

Lemma keeps_digitalRead e pin : keeps (digitalRead e pin).
Proof. unfold digitalRead. cbv zeta. keeps_tac. Qed.

Ltac keeps_call2 :=
  lazymatch goal with
  | |- keeps (rand _) => apply keeps_rand
  | |- keeps (gettimeofday _) => apply keeps_gettimeofday
  | |- keeps (dumpMessage _ _) => apply keeps_dumpMessage
  | |- keeps (digitalRead _ _) => apply keeps_digitalRead
  | |- keeps (receivePkt _) => apply keeps_receivePkt
  | |- _ => keeps_call
  end.

Lemma keeps_compose_rxpk e corr : keeps (compose_rxpk e corr).
Proof. unfold compose_rxpk. cbv zeta. repeat keeps_call2. Qed.

Lemma keeps_receiveDraginoPacket e : keeps (receiveDraginoPacket e).
Proof.
  unfold receiveDraginoPacket.
  repeat lazymatch goal with
         | |- keeps (compose_rxpk _ _) => apply keeps_compose_rxpk
         | |- _ => keeps_call2
         end.
Qed.

Lemma bind_inv {A B} (c : M A) (k : A -> M B) s r :
  bind c k s = Some r ->
  exists a s1, c s = Some (a, s1) /\ k a s1 = Some r.
Proof.
  unfold bind. destruct (c s) as [[a s1]|]; [|discriminate].
  intros E. now exists a, s1.
Qed.

Lemma draginoMain_round_inv e lasttime s lasttime' s' :
  Z.of_nat (length (status_report s)) = STATUS_SIZE ->
  draginoMain_round e lasttime s = Some (lasttime', s') ->
  Z.of_nat (length (status_report s')) = STATUS_SIZE
  /\ ((cp_up_pkt_fwd s' = cp_up_pkt_fwd s
       /\ stat_frames (trace s') = stat_frames (trace s))
      \/ (cp_up_pkt_fwd s' = 0
          /\ exists stamp rxnb rxok,
               stat_frames (trace s')
               = stat_json stamp alt rxnb rxok (cp_up_pkt_fwd s)
                 :: stat_frames (trace s))).
Proof.
  intros Hlen E. unfold draginoMain_round in E.
  apply bind_inv in E. destruct E as (r0 & s1 & E1 & E).
  destruct (keeps_receiveDraginoPacket e _ _ _ E1) as (F1 & S1 & T1).
  rewrite <- S1 in Hlen. rewrite <- F1, <- T1. clear E1 F1 S1 T1 s r0.
  destruct s1 as [sx rb rcv ok fwd tm sf0 fq hw pkt snr pl sr sn dn rn cn tr].
  cbn [status_report cp_up_pkt_fwd trace] in *.
  revert E. exec.
  destruct (30 <=? to_uint32 (to_uint32 (clock_sec e cn) - lasttime)).
  - match goal with |- context [sendstat e ?s1] =>
      destruct (sendstat_run e s1 Hlen) as (R & Es & HR)
    end.
    match type of Es with _ = Some (_, after_sendstat _ ?s1 _) =>
      assert (Hbuf : Z.of_nat (length ((compose_header e s1 ++ stat_text e s1)
                                        ++ 0 :: R)) = STATUS_SIZE)
        by (rewrite !length_app; unfold compose_header, frame_header,
              STATUS_SIZE; cbn [length]; lia)
    end.
    rewrite Es. unfold after_sendstat, stat_text. exec.
    intros E. injection E as <- <-. cbn [status_report cp_up_pkt_fwd trace].
    split.
    + exact Hbuf.
    + right. split; [reflexivity|].
      unfold stat_frames. observe. eauto.
  - intros E. injection E as <- <-. cbn [status_report cp_up_pkt_fwd trace].
    split; [assumption|]. left. split; [reflexivity|].
    unfold stat_frames. observe. reflexivity.
Qed.

(** C10.  Nothing in the loop of [draginoMain] increments the forwarded
    counter: from a state where it is 0 (as the loader leaves it), after
    any number of rounds it is 0, and every status frame emitted on the
    way reports [rxfw] as 0. *)
Theorem forwarded_counter_stays_zero e n lasttime s r s' :
  cp_up_pkt_fwd s = 0 ->
  Z.of_nat (length (status_report s)) = STATUS_SIZE ->
  draginoMain_loop e n lasttime s = Some (r, s') ->
  cp_up_pkt_fwd s' = 0
  /\ exists new,
       stat_frames (trace s') = new ++ stat_frames (trace s)
       /\ Forall (fun body => reports_rxfw body 0) new.
Proof.
  revert lasttime s. induction n as [|n IH]; intros lasttime s Hfwd Hlen E.
  - injection E as <- <-. split; [assumption|]. exists []. split; [reflexivity|constructor].
  - cbn [draginoMain_loop] in E.
    apply bind_inv in E. destruct E as (lt1 & s1 & E1 & E).
    destruct (draginoMain_round_inv e _ _ _ _ Hlen E1) as (Hlen1 & Hcase).
    assert (Hfwd1 : cp_up_pkt_fwd s1 = 0) by (destruct Hcase as [[F _]|[F _]]; congruence).
    destruct (IH lt1 s1 Hfwd1 Hlen1 E) as (Hfin & new & Hnew & Hall).
    split; [assumption|].
    destruct Hcase as [[_ T]|[_ (stamp & rxnb & rxok & T)]].
    + exists new. rewrite Hnew, T. split; [reflexivity|assumption].
    + exists (new ++ [stat_json stamp alt rxnb rxok (cp_up_pkt_fwd s)]).
      rewrite Hnew, T, <- app_assoc. split; [reflexivity|].
      apply Forall_app. split; [assumption|].
      constructor; [|constructor].
      rewrite Hfwd. now exists stamp, alt, rxnb, rxok.
Qed.

Lemma forwarded_counter_stays_zero_witness :
  cp_up_pkt_fwd sample_state = 0
  /\ Z.of_nat (length (status_report sample_state)) = STATUS_SIZE
  /\ exists r s',
       draginoMain_loop (steady_env 3 1 40) 3 0 sample_state = Some (r, s')
       /\ cp_up_pkt_fwd s' = 0
       /\ exists new,
            stat_frames (trace s') = new ++ stat_frames (trace sample_state)
            /\ Forall (fun body => reports_rxfw body 0) new.
Proof.
  split; [reflexivity|]. split; [reflexivity|].
  destruct (draginoMain_loop (steady_env 3 1 40) 3 0 sample_state)
    as [[r s']|] eqn:E; [|vm_compute in E; discriminate].
  exists r, s'. split; [reflexivity|].
  apply (forwarded_counter_stays_zero (steady_env 3 1 40) 3 0 sample_state r s');
    [reflexivity|reflexivity|exact E].
Defined.

Lemma rxpk_json_length tmst hz sf snr rssi size :
  Z.of_nat (length (rxpk_json tmst hz sf snr rssi size)) <= 220.
Proof.
  unfold rxpk_json.
  pose proof (fmt_u_length tmst). pose proof (fmt_u_length 0).
  pose proof (fmt_mhz_length hz). pose proof (fmt_d_length snr).
  pose proof (fmt_d_length rssi). pose proof (fmt_u_length size).
  destruct (datr_literal_length sf) as [D1 D2].
  destruct (datr_literal sf) as [datr datr_n]. cbn [fst snd] in *.
  len_norm. lia.
Qed.

Lemma frame_in_buffer (H J R : list Z) :
  firstn (length (H ++ J)) ((H ++ J) ++ 0 :: R) = H ++ J
  /\ nth (length (H ++ J)) ((H ++ J) ++ 0 :: R) 1 = 0.
Proof.
  split.
  - rewrite firstn_app, Nat.sub_diag, firstn_all. cbn [firstn]. apply app_nil_r.
  - rewrite app_nth2 by lia. now rewrite Nat.sub_diag.
Qed.

(** C2.  Neither encoder ever truncates: for every state, the uplink
    composition and the status composition end with the complete frame
    (the 12-byte header and the whole JSON text, followed by a
    terminator) in the buffer, the index at its end, and the frame
    shorter than its buffer, hence within the 2048-byte budget.  The
    overflow that would call for a "frame too large" failure does
    not arise for any input. *)
Theorem encoders_never_truncate e corr s :
  Z.of_nat (length (status_report s)) = STATUS_SIZE ->
  (exists buff_up s' token_h token_l tmst raw,
     let frame :=
       frame_header token_h token_l (hwaddr_byte s)
       ++ rxpk_json tmst (freq s) (sf s) (lora_snr s) (raw - corr)
            (receivedbytes s) in
     compose_rxpk e corr s = Some (buff_up, Z.of_nat (length frame), s')
     /\ Z.of_nat (length buff_up) = TX_BUFF_SIZE
     /\ Z.of_nat (length frame) < TX_BUFF_SIZE
     /\ firstn (length frame) buff_up = frame
     /\ nth (length frame) buff_up 1 = 0)
  /\ (exists s' token_h token_l stamp,
        let body :=
          stat_json stamp alt (cp_nb_rx_rcv s) (cp_nb_rx_ok s)
            (cp_up_pkt_fwd s) in
        let frame := frame_header token_h token_l (hwaddr_byte s) ++ body in
        sendstat e s = Some (tt, s')
        /\ Z.of_nat (length (status_report s')) = STATUS_SIZE
        /\ Z.of_nat (length frame) < STATUS_SIZE
        /\ firstn (length frame) (status_report s') = frame
        /\ nth (length frame) (status_report s') 1 = 0
        /\ stat_frames (trace s') = body :: stat_frames (trace s)).
Proof.
  intros Hlen. split.
  - destruct (compose_rxpk_run e corr s) as (R & E & HR).
    pose proof (rxpk_json_length
                  (to_uint32 (clock_sec e (clock_n s) * 1000000
                              + clock_usec e (clock_n s)))
                  (freq s) (sf s) (lora_snr s) (miso_byte e (spi_n s) - corr)
                  (receivedbytes s)) as HJ.
    unfold compose_header, compose_json in *.
    eexists _, _, _, _, _, _. cbv zeta.
    split; [|split; [|split; [|apply frame_in_buffer]]].
    + rewrite E. f_equal. f_equal. f_equal.
      rewrite length_app. unfold frame_header. cbn [length]. lia.
    + rewrite !length_app in *. unfold frame_header, TX_BUFF_SIZE.
      cbn [length] in *. lia.
    + rewrite !length_app in *. unfold frame_header, TX_BUFF_SIZE.
      cbn [length] in *. lia.
  - destruct (sendstat_run e s Hlen) as (R & E & HR).
    pose proof (stat_json_length
                  (strftime_24 e (clock_sec e (clock_n s))) alt
                  (cp_nb_rx_rcv s) (cp_nb_rx_ok s) (cp_up_pkt_fwd s)
                  (strftime_24_length _ _)) as HJ.
    exists (after_sendstat e s R), (to_uint8 (rand_value e (rand_n s))),
      (to_uint8 (rand_value e (S (rand_n s)))),
      (strftime_24 e (clock_sec e (clock_n s))).
    cbv zeta. split; [exact E|].
    unfold after_sendstat, compose_header, stat_text in *.
    set (H := frame_header _ _ _) in *.
    set (J := stat_json _ _ _ _ _) in *.
    assert (HH : length H = 12%nat) by reflexivity.
    destruct s as [sx rb rcv ok fwd tm sf0 fq hw pkt snr pl sr sn dn rn cn tr].
    cbn [status_report trace set_trace set_status_report set_clock_n
         set_rand_n] in *.
    split; [|split; [|split; [apply frame_in_buffer
                             |split; [apply frame_in_buffer|]]]].
    + rewrite !length_app in *. unfold STATUS_SIZE. cbn [length] in *. lia.
    + rewrite !length_app in *. unfold STATUS_SIZE. cbn [length] in *. lia.
    + reflexivity.
Qed.

Lemma encoders_never_truncate_witness :
  Z.of_nat (length (status_report sample_state)) = STATUS_SIZE
  /\ ((exists buff_up s' token_h token_l tmst raw,
         let frame :=
           frame_header token_h token_l (hwaddr_byte sample_state)
           ++ rxpk_json tmst (freq sample_state) (sf sample_state)
                (lora_snr sample_state) (raw - 139)
                (receivedbytes sample_state) in
         compose_rxpk (steady_env 3 1 40) 139 sample_state
         = Some (buff_up, Z.of_nat (length frame), s')
         /\ Z.of_nat (length buff_up) = TX_BUFF_SIZE
         /\ Z.of_nat (length frame) < TX_BUFF_SIZE
         /\ firstn (length frame) buff_up = frame
         /\ nth (length frame) buff_up 1 = 0)
      /\ (exists s' token_h token_l stamp,
            let body :=
              stat_json stamp alt (cp_nb_rx_rcv sample_state)
                (cp_nb_rx_ok sample_state) (cp_up_pkt_fwd sample_state) in
            let frame :=
              frame_header token_h token_l (hwaddr_byte sample_state) ++ body in
            sendstat (steady_env 3 1 40) sample_state = Some (tt, s')
            /\ Z.of_nat (length (status_report s')) = STATUS_SIZE
            /\ Z.of_nat (length frame) < STATUS_SIZE
            /\ firstn (length frame) (status_report s') = frame
            /\ nth (length frame) (status_report s') 1 = 0
            /\ stat_frames (trace s')
               = body :: stat_frames (trace sample_state))).
Proof.
  split; [reflexivity|].
  apply (encoders_never_truncate (steady_env 3 1 40) 139 sample_state).
  reflexivity.
Defined.

(** C6.  For every 6-byte hardware address, bytes 4 to 11 of the uplink
    frame and of the status frame are the first three address bytes,
    0xFF, 0xFF, and the last three address bytes. *)
Theorem header_identity e corr s h0 h1 h2 h3 h4 h5 :
  is_byte h0 -> is_byte h1 -> is_byte h2 ->
  is_byte h3 -> is_byte h4 -> is_byte h5 ->
  firstn 6 (ifr_hwaddr s) = [h0; h1; h2; h3; h4; h5] ->
  Z.of_nat (length (status_report s)) = STATUS_SIZE ->
  (exists buff_up buff_index s',
     compose_rxpk e corr s = Some (buff_up, buff_index, s')
     /\ firstn 8 (skipn 4 buff_up) = [h0; h1; h2; 0xFF; 0xFF; h3; h4; h5])
  /\ (exists s',
        sendstat e s = Some (tt, s')
        /\ firstn 8 (skipn 4 (status_report s'))
           = [h0; h1; h2; 0xFF; 0xFF; h3; h4; h5]).
Proof.
  intros B0 B1 B2 B3 B4 B5 Hhw Hlen.
  assert (Hb : hwaddr_byte s 0 = h0 /\ hwaddr_byte s 1 = h1
               /\ hwaddr_byte s 2 = h2 /\ hwaddr_byte s 3 = h3
               /\ hwaddr_byte s 4 = h4 /\ hwaddr_byte s 5 = h5).
  { unfold hwaddr_byte.
    destruct (ifr_hwaddr s) as [|a0 [|a1 [|a2 [|a3 [|a4 [|a5 rest]]]]]];
      try discriminate Hhw.
    cbn [firstn] in Hhw. injection Hhw as -> -> -> -> -> ->.
    cbn [nth]. now rewrite !to_uint8_small by assumption. }
  destruct Hb as (E0 & E1 & E2 & E3 & E4 & E5).
  split.
  - destruct (compose_rxpk_run e corr s) as (R & E & _).
    eexists _, _, _. split; [exact E|].
    unfold compose_header, frame_header. cbn [app skipn firstn].
    now rewrite E0, E1, E2, E3, E4, E5.
  - destruct (sendstat_run e s Hlen) as (R & E & _).
    eexists. split; [exact E|].
    unfold after_sendstat, compose_header, frame_header.
    destruct s as [sx rb rcv ok fwd tm sf0 fq hw pkt snr pl sr sn dn rn cn tr].
    cbn [status_report set_trace set_status_report set_clock_n
         set_rand_n app skipn firstn].
    now rewrite E0, E1, E2, E3, E4, E5.
Qed.

Lemma header_identity_witness :
  is_byte 0x12 /\ is_byte 0x34 /\ is_byte 0x56
  /\ is_byte 0x78 /\ is_byte 0x9A /\ is_byte 0xBC
  /\ firstn 6 (ifr_hwaddr sample_state) = [0x12; 0x34; 0x56; 0x78; 0x9A; 0xBC]
  /\ Z.of_nat (length (status_report sample_state)) = STATUS_SIZE
  /\ (exists buff_up buff_index s',
        compose_rxpk (steady_env 3 1 40) 139 sample_state
        = Some (buff_up, buff_index, s')
        /\ firstn 8 (skipn 4 buff_up)
           = [0x12; 0x34; 0x56; 0xFF; 0xFF; 0x78; 0x9A; 0xBC])
  /\ (exists s',
        sendstat (steady_env 3 1 40) sample_state = Some (tt, s')
        /\ firstn 8 (skipn 4 (status_report s'))
           = [0x12; 0x34; 0x56; 0xFF; 0xFF; 0x78; 0x9A; 0xBC]).
Proof.
  repeat (split; [unfold is_byte; lia|]).
  split; [reflexivity|]. split; [reflexivity|].
  apply (header_identity (steady_env 3 1 40) 139 sample_state
           0x12 0x34 0x56 0x78 0x9A 0xBC);
    first [unfold is_byte; lia | reflexivity].
Defined.

Lemma rssi_offsets_witness :
  gpio_level (steady_env 3 1 40) (dio_n sample_state) = 1
  /\ Z.testbit (miso_byte (steady_env 3 1 40) (S (spi_n sample_state))) 5
     = false
  /\ 255 <= Z.of_nat (length (lora_packet sample_state))
  /\ let offset := if is_sx1272 sample_state then 139 else 157 in
     exists s' raw1 raw2 raw3 tmst snr size,
       receiveDraginoPacket (steady_env 3 1 40) sample_state = Some (0, s')
       /\ rssi_reads (trace s')
          = rssi_reads (trace sample_state) ++ [raw1; raw2; raw3]
       /\ printed_rssi (trace s')
          = printed_rssi (trace sample_state)
            ++ [raw1 - offset; raw2 - offset]
       /\ uplink_frames (trace s')
          = rxpk_json tmst (freq sample_state) (sf sample_state) snr
              (raw3 - offset) size
            :: uplink_frames (trace sample_state).
Proof.
  split; [reflexivity|]. split; [reflexivity|].
  split; [vm_compute; discriminate|].
  apply (rssi_offsets (steady_env 3 1 40) sample_state).
  - reflexivity.
  - reflexivity.
  - vm_compute. discriminate.
Defined.

(** *** Further properties of the driver *)

(** X1.  The decoded SNR is the register byte, read as a signed 8-bit
    value, divided by 4 with truncation toward zero; it lies between
    -32 and 31. *)
Theorem decode_snr_is_quarter raw :
  is_byte raw ->
  decode_snr raw = Z.quot (signed_byte raw) 4 /\ -32 <= decode_snr raw <= 31.
Proof.
  intros H.
  assert (Hall : forallb snr_quot_check all_bytes = true)
    by (vm_compute; reflexivity).
  pose proof (byte_cases snr_quot_check Hall raw H) as Hc.
  unfold snr_quot_check in Hc.
  apply andb_true_iff in Hc. destruct Hc as [Hc H3].
  apply andb_true_iff in Hc. destruct Hc as [H1 H2].
  apply Z.eqb_eq in H1. apply Z.leb_le in H2, H3. auto.
Qed.

Lemma decode_snr_is_quarter_witness :
  is_byte 0xF1
  /\ decode_snr 0xF1 = Z.quot (signed_byte 0xF1) 4
  /\ -32 <= decode_snr 0xF1 <= 31.
Proof.
  split; [unfold is_byte; lia|].
  apply (decode_snr_is_quarter 0xF1). unfold is_byte; lia.
Defined.

Lemma pokes_pokes (buf : list Z) i c rest :
  0 <= i -> i + 1 + Z.of_nat (length rest) <= Z.of_nat (length buf) ->
  firstn (Z.to_nat (i + 1)) (firstn (Z.to_nat i) buf ++ [c] ++ skipn (Z.to_nat i + 1) buf)
  ++ rest
  ++ skipn (Z.to_nat (i + 1) + length rest)
       (firstn (Z.to_nat i) buf ++ [c] ++ skipn (Z.to_nat i + 1) buf)
  = firstn (Z.to_nat i) buf ++ (c :: rest)
    ++ skipn (Z.to_nat i + S (length rest)) buf.
Proof.
  intros Hi Hfit.
  assert (Hl : length (firstn (Z.to_nat i) buf) = Z.to_nat i)
    by (rewrite length_firstn; lia).
  assert (Hl1 : Z.to_nat (i + 1) = length (firstn (Z.to_nat i) buf ++ [c])).
  { rewrite length_app, Hl. cbn [length]. lia. }
  rewrite Hl1.
  rewrite (app_assoc (firstn (Z.to_nat i) buf) [c]).
  rewrite firstn_app, Nat.sub_diag, firstn_all. cbn [firstn].
  rewrite app_nil_r.
  rewrite skipn_app.
  rewrite skipn_all2 by lia. cbn [app].
  replace (length (firstn (Z.to_nat i) buf ++ [c]) + length rest
           - length (firstn (Z.to_nat i) buf ++ [c]))%nat
    with (length rest) by lia.
  rewrite skipn_skipn.
  rewrite <- app_assoc. cbn [app]. do 4 f_equal. lia.
Qed.

Lemma receivePkt_loop_bytes e n i s :
  0 <= i ->
  i + Z.of_nat n <= Z.of_nat (length (lora_packet s)) ->
  receivePkt_loop e n i s
  = Some (tt, set_trace (fifo_events e n (spi_n s) ++ trace s)
                (set_lora_packet
                   (firstn (Z.to_nat i) (lora_packet s)
                    ++ fifo_bytes e n (spi_n s)
                    ++ skipn (Z.to_nat i + n) (lora_packet s))
                   (set_spi_n (n + spi_n s) s))).
Proof.
  revert i s. induction n as [|n IH]; intros i s Hi Hfit.
  - destruct s as [sx rb rcv ok fwd tm sf0 fq hw pkt snr pl sr sn dn rn cn tr].
    cbn [receivePkt_loop fifo_events fifo_bytes]. exec.
    rewrite Nat.add_0_r. cbn [app]. now rewrite firstn_skipn.
  - destruct s as [sx rb rcv ok fwd tm sf0 fq hw pkt snr pl sr sn dn rn cn tr].
    cbn [lora_packet spi_n trace] in *.
    cbn [receivePkt_loop fifo_events fifo_bytes]. exec.
    unfold poke, pokes.
    replace ((0 <=? i) && (i + Z.of_nat (length [to_uint8 (to_uint8 (spi_miso e sn))])
                           <=? Z.of_nat (length pkt))) with true
      by (symmetry; apply andb_true_iff; split; apply Z.leb_le; cbn [length]; lia).
    exec.
    rewrite IH; [|lia|].
    2:{ cbn [lora_packet]. rewrite !length_app, length_firstn, length_skipn.
        cbn [length]. lia. }
    exec. f_equal. f_equal.
    rewrite <- app_assoc, Nat.add_succ_r.
    pose proof (pokes_pokes pkt i (to_uint8 (to_uint8 (spi_miso e sn)))
                  (fifo_bytes e n (S sn)) Hi) as P.
    assert (Hfb : length (fifo_bytes e n (S sn)) = n).
    { clear. generalize (S sn). induction n; intros k; cbn [fifo_bytes length]; auto. }
    rewrite Hfb in P. cbn [length] in P.
    cbn [length]. rewrite P by lia. reflexivity.
Qed.

Lemma fifo_bytes_map e n k : fifo_bytes e n k = map (miso_byte e) (seq k n).
Proof.
  revert k. induction n as [|n IH]; intros k; [reflexivity|].
  cbn [fifo_bytes seq map]. rewrite IH. f_equal.
  apply to_uint8_idem.
Qed.

Lemma idle_poll_run e s :
  gpio_level e (dio_n s) <> 1 ->
  receiveDraginoPacket e s
  = Some (1, set_trace (EvDigitalRead dio0 (gpio_level e (dio_n s)) :: trace s)
               (set_dio_n (S (dio_n s)) s)).
Proof.
  intros H. destruct s as [sx rb rcv ok fwd tm sf0 fq hw pkt snr pl sr sn dn rn cn tr].
  cbn [dio_n] in *. unfold receiveDraginoPacket. exec.
  apply Z.eqb_neq in H. rewrite H. reflexivity.
Qed.

Lemma crc_error_run e s :
  gpio_level e (dio_n s) = 1 ->
  Z.testbit (miso_byte e (S (spi_n s))) 5 = true ->
  exists s',
    receiveDraginoPacket e s = Some (1, s')
    /\ trace s'
       = write_events e REG_IRQ_FLAGS 0x20 (2 + spi_n s)
         ++ [EvPrintf MsgCrcError]
         ++ read_events e REG_IRQ_FLAGS (1 + spi_n s)
         ++ write_events e REG_IRQ_FLAGS 0x40 (spi_n s)
         ++ [EvDigitalRead dio0 1]
         ++ trace s
    /\ register_writes (trace s')
       = register_writes (trace s)
         ++ [(REG_IRQ_FLAGS, 0x40); (REG_IRQ_FLAGS, 0x20)]
    /\ lora_packet s' = lora_packet s
    /\ receivedbytes s' = receivedbytes s
    /\ lora_snr s' = lora_snr s
    /\ cp_nb_rx_ok s' = cp_nb_rx_ok s
    /\ clock_n s' = clock_n s.
Proof.
  destruct s as [sx rb rcv ok fwd tm sf0 fq hw pkt snr pl sr sn dn rn cn tr].
  cbn [dio_n spi_n lora_packet receivedbytes lora_snr cp_nb_rx_ok trace
       clock_n].
  intros Hdio Hcrc.
  unfold receiveDraginoPacket. exec. rewrite Hdio.
  change (1 =? 1) with true. exec.
  unfold receivePkt. exec.
  unfold miso_byte in Hcrc.
  rewrite crc_flag_bit by apply to_uint8_range. rewrite Hcrc. exec.
  eexists. split; [reflexivity|]. exec.
  split; [reflexivity|].
  unfold register_writes. observe. repeat split; reflexivity.
Qed.

Lemma accepted_poll_run e s :
  gpio_level e (dio_n s) = 1 ->
  Z.testbit (miso_byte e (S (spi_n s))) 5 = false ->
  255 <= Z.of_nat (length (lora_packet s)) ->
  let k := spi_n s in
  let count := miso_byte e (3 + k) in
  let n := Z.to_nat count in
  exists s',
    receiveDraginoPacket e s = Some (0, s')
    /\ receivedbytes s' = count
    /\ lora_packet_length s' = count
    /\ lora_packet s'
       = map (miso_byte e) (seq (5 + k) n) ++ skipn n (lora_packet s)
    /\ lora_snr s' = decode_snr (miso_byte e (5 + n + k))
    /\ spi_n s' = (9 + n + k)%nat
    /\ register_writes (trace s')
       = register_writes (trace s)
         ++ [(REG_IRQ_FLAGS, 0x40);
             (REG_FIFO_ADDR_PTR, miso_byte e (2 + k))]
    /\ uplink_frames (trace s')
       = rxpk_json
           (to_uint32 (clock_sec e (clock_n s) * 1000000
                       + clock_usec e (clock_n s)))
           (freq s) (sf s) (decode_snr (miso_byte e (5 + n + k)))
           (miso_byte e (8 + n + k) - rssicorr_of (is_sx1272 s)) count
         :: uplink_frames (trace s)
    /\ clock_n s' = S (clock_n s).
Proof.
  destruct s as [sx rb rcv ok fwd tm sf0 fq hw pkt snr pl sr sn dn rn cn tr].
  cbn [dio_n spi_n lora_packet is_sx1272 cp_nb_rx_rcv cp_nb_rx_ok trace freq sf
       clock_n].
  intros Hdio Hcrc Hcap. cbv zeta.
  unfold receiveDraginoPacket. exec. rewrite Hdio.
  change (1 =? 1) with true. exec.
  unfold receivePkt. exec.
  unfold miso_byte in Hcrc.
  rewrite crc_flag_bit by apply to_uint8_range. rewrite Hcrc. exec.
  unfold miso_byte. cbn [Nat.add].
  set (cnt := to_uint8 (spi_miso e (S (S (S sn))))).
  assert (Hcnt : 0 <= cnt < 256) by apply to_uint8_range.
  rewrite receivePkt_loop_bytes by (cbn [lora_packet]; lia). exec.
  match goal with |- context [compose_rxpk e ?c ?s1] =>
    destruct (compose_rxpk_run e c s1) as (R & E & HR)
  end.
  rewrite E. clear E. exec.
  rewrite c_string_frame by (reflexivity || apply no_nul_rxpk_json).
  unfold after_compose, compose_json. exec.
  eexists. split; [reflexivity|]. exec.
  split; [reflexivity|]. split; [reflexivity|].
  split.
  { cbn [firstn app Z.to_nat Nat.add]. rewrite fifo_bytes_map. reflexivity. }
  assert (I5 : (Z.to_nat cnt + S (S (S (S (S sn)))) = 5 + Z.to_nat cnt + sn)%nat)
    by lia.
  split.
  { unfold miso_byte. now rewrite I5. }
  split; [lia|].
  split.
  { unfold register_writes, read_events. observe.
    rewrite to_uint8_idem. reflexivity. }
  split; [|reflexivity].
  unfold uplink_frames, read_events. observe.
  unfold miso_byte. rewrite I5. reflexivity.
Qed.


(** C5.  In a poll that finds the DIO0 line asserted, the received
    counter advances by one (as a 32-bit counter).  When the CRC-error
    bit (bit 5, 0x20) of the IRQ flags is set, the accepted counter is
    unchanged and no uplink frame is produced; when it is clear, the
    accepted counter advances by one and exactly one uplink frame is
    produced: the text of lines 531-606, with the timestamp of the one
    clock reading of the poll, the configured frequency and spreading
    factor, the decoded SNR byte, the corrected RSSI byte and the byte
    count that the chip reported.  The external packet buffer must hold
    the 255 bytes a frame can have. *)
Theorem poll_counters e s :
  gpio_level e (dio_n s) = 1 ->
  255 <= Z.of_nat (length (lora_packet s)) ->
  let irqflags := miso_byte e (S (spi_n s)) in
  exists r s',
    receiveDraginoPacket e s = Some (r, s')
    /\ cp_nb_rx_rcv s' = to_uint32 (cp_nb_rx_rcv s + 1)
    /\ if Z.testbit irqflags 5 then
         r = 1 /\ cp_nb_rx_ok s' = cp_nb_rx_ok s
         /\ uplink_frames (trace s') = uplink_frames (trace s)
       else
         r = 0 /\ cp_nb_rx_ok s' = to_uint32 (cp_nb_rx_ok s + 1)
         /\ let count := miso_byte e (3 + spi_n s) in
            let n := Z.to_nat count in
            uplink_frames (trace s')
            = rxpk_json
                (to_uint32 (clock_sec e (clock_n s) * 1000000
                            + clock_usec e (clock_n s)))
                (freq s) (sf s)
                (decode_snr (miso_byte e (5 + n + spi_n s)))
                (miso_byte e (8 + n + spi_n s) - rssicorr_of (is_sx1272 s))
                count
              :: uplink_frames (trace s).
Proof.
  intros Hdio Hcap irqflags. subst irqflags.
  destruct (Z.testbit (miso_byte e (S (spi_n s))) 5) eqn:Hcrc.
  - destruct (crc_poll_run e s Hdio Hcrc) as (s' & E & Hrcv & Hok & Hup).
    exists 1, s'. repeat split; assumption.
  - destruct (good_poll_run e s Hdio Hcrc Hcap)
      as (s' & raw_snr & raw1 & raw2 & raw3 & tmst & size & E & Hrcv & Hok
          & _).
    destruct (accepted_poll_run e s Hdio Hcrc Hcap)
      as (s2 & E2 & _ & _ & _ & _ & _ & _ & Hup & _).
    assert (Hs : s2 = s') by congruence. subst s2.
    exists 0, s'.
    split; [exact E|]. split; [exact Hrcv|]. split; [reflexivity|].
    split; [exact Hok|]. exact Hup.
Qed.

Lemma poll_counters_witness :
  gpio_level (steady_env 3 1 40) (dio_n sample_state) = 1
  /\ 255 <= Z.of_nat (length (lora_packet sample_state))
  /\ let irqflags := miso_byte (steady_env 3 1 40) (S (spi_n sample_state)) in
     exists r s',
       receiveDraginoPacket (steady_env 3 1 40) sample_state = Some (r, s')
       /\ cp_nb_rx_rcv s' = to_uint32 (cp_nb_rx_rcv sample_state + 1)
       /\ if Z.testbit irqflags 5 then
            r = 1 /\ cp_nb_rx_ok s' = cp_nb_rx_ok sample_state
            /\ uplink_frames (trace s') = uplink_frames (trace sample_state)
          else
            r = 0 /\ cp_nb_rx_ok s' = to_uint32 (cp_nb_rx_ok sample_state + 1)
            /\ let count :=
                 miso_byte (steady_env 3 1 40) (3 + spi_n sample_state) in
               let n := Z.to_nat count in
               uplink_frames (trace s')
               = rxpk_json
                   (to_uint32
                      (clock_sec (steady_env 3 1 40) (clock_n sample_state)
                       * 1000000
                       + clock_usec (steady_env 3 1 40)
                           (clock_n sample_state)))
                   (freq sample_state) (sf sample_state)
                   (decode_snr
                      (miso_byte (steady_env 3 1 40)
                         (5 + n + spi_n sample_state)))
                   (miso_byte (steady_env 3 1 40)
                      (8 + n + spi_n sample_state)
                    - rssicorr_of (is_sx1272 sample_state))
                   count
                 :: uplink_frames (trace sample_state).
Proof.
  split; [reflexivity|]. split; [vm_compute; discriminate|].
  apply (poll_counters (steady_env 3 1 40) sample_state).
  - reflexivity.
  - vm_compute. discriminate.
Defined.

(** *** The register programme *)

Lemma land_lor_128 a : Z.land (Z.lor a 0x80) 0x7F = Z.land a 0x7F.
Proof.
  apply Z.bits_inj'. intros n Hn.
  rewrite !Z.land_spec, Z.lor_spec.
  destruct (Z.testbit 0x7F n) eqn:E7; [|now rewrite !andb_false_r].
  rewrite !andb_true_r.
  assert (Z.testbit 0x80 n = false).
  { destruct (Z.eq_dec n 7) as [->|Hne]; [discriminate E7|].
    change 0x80 with (2 ^ 7). rewrite Z.pow2_bits_eqb by lia.
    apply Z.eqb_neq. lia. }
  rewrite H. apply orb_false_r.
Qed.

Lemma setup_writes_run h e address mode channel power s :
  let k := spi_n s in
  let v1 := miso_byte e k in
  let v2 := miso_byte e (S k) in
  (v1 =? 0x22) || (v2 =? 0x12) = true ->
  exists s',
    setupDraginoLoRa h e address mode channel power s = Some (0, s')
    /\ is_sx1272 s' = (v1 =? 0x22)
    /\ transmission_mode s' = mode
    /\ register_writes (trace s')
       = register_writes (trace s)
         ++ config_writes h (v1 =? 0x22) (sf s) mode (freq s)
              (miso_byte e (if v1 =? 0x22 then 11 + k else 13 + k)).
Proof.
  cbv zeta. intros Hdet. unfold miso_byte in *.
  destruct s as [sx rb rcv ok fwd tm sf0 fq hw pkt snr pl sr sn dn rn cn tr].
  unfold setupDraginoLoRa, register_writes, config_writes, reg7. exec.
  exec in Hdet.
  destruct (to_uint8 (spi_miso e sn) =? 34) eqn:E1; exec.
  - destruct ((sf0 =? SF11) || (sf0 =? SF12));
    destruct ((sf0 =? SF10) || (sf0 =? SF11) || (sf0 =? SF12));
    destruct (mode =? 1); exec;
    (eexists; split; [reflexivity|]); exec;
    (split; [reflexivity|]); (split; [reflexivity|]);
    observe; rewrite ?land_lor_128;
    unfold frf_msb, frf_mid, frf_lsb; rewrite !to_uint8_idem;
    reflexivity.
  - cbn [orb] in Hdet. rewrite Hdet. exec.
    destruct ((sf0 =? SF11) || (sf0 =? SF12));
    destruct ((sf0 =? SF10) || (sf0 =? SF11) || (sf0 =? SF12));
    destruct (mode =? 1); exec;
    (eexists; split; [reflexivity|]); exec;
    (split; [reflexivity|]); (split; [reflexivity|]);
    observe; rewrite ?land_lor_128;
    unfold frf_msb, frf_mid, frf_lsb; rewrite !to_uint8_idem;
    reflexivity.
Qed.

(** *** The chip-select line *)

Lemma framed_ret {A} (a : A) : keeps_framed (ret a).
Proof. intros s a' s' E H. now injection E as <- <-. Qed.

Lemma framed_bind {A B} (c : M A) (k : A -> M B) :
  keeps_framed c -> (forall a, keeps_framed (k a)) -> keeps_framed (bind c k).
Proof.
  intros Hc Hk s b s' E H. unfold bind in E.
  destruct (c s) as [[a s1]|] eqn:Ec; [|discriminate].
  eapply Hk; [exact E|]. eapply Hc; eauto.
Qed.

Lemma framed_get : keeps_framed get.
Proof. intros s a s' E H. now injection E as <- <-. Qed.

Lemma framed_lift_option {A} (o : option A) : keeps_framed (lift_option o).
Proof.
  intros s a s' E H. unfold lift_option in E.
  destruct o; [|discriminate]. now injection E as <- <-.
Qed.

Lemma framed_modify (f : state -> state) :
  (forall s, trace (f s) = trace s) -> keeps_framed (modify f).
Proof. intros Hf s a s' E H. injection E as <- <-. now rewrite Hf. Qed.

Lemma framed_emit ev : quiet_event ev = true -> keeps_framed (emit ev).
Proof.
  intros Hq s a s' E H. injection E as <- <-.
  destruct s as [sx rb rcv ok fwd tm sf0 fq hw pkt snr pl sr sn dn rn cn tr].
  cbn [trace set_trace] in *.
  destruct ev; cbn [bus_framed]; try assumption; try discriminate.
  cbn [quiet_event] in Hq. apply negb_true_iff in Hq. now rewrite Hq.
Qed.

Lemma framed_readDraginoRegister e addr :
  keeps_framed (readDraginoRegister e addr).
Proof.
  intros s a s' E H.
  destruct s as [sx rb rcv ok fwd tm sf0 fq hw pkt snr pl sr sn dn rn cn tr].
  revert E. exec. intros E. injection E as <- <-. exact H.
Qed.

Lemma framed_writeDraginoRegister e addr v :
  keeps_framed (writeDraginoRegister e addr v).
Proof.
  intros s a s' E H.
  destruct s as [sx rb rcv ok fwd tm sf0 fq hw pkt snr pl sr sn dn rn cn tr].
  revert E. exec. intros E. injection E as <- <-. exact H.
Qed.

Ltac framed_step :=
  lazymatch goal with
  | |- keeps_framed (ret _) => apply framed_ret
  | |- keeps_framed get => apply framed_get
  | |- keeps_framed (lift_option _) => apply framed_lift_option
  | |- keeps_framed (emit _) => apply framed_emit; reflexivity
  | |- keeps_framed (modify _) => apply framed_modify; intros []; reflexivity
  | |- keeps_framed (readDraginoRegister _ _) =>
      apply framed_readDraginoRegister
  | |- keeps_framed (writeDraginoRegister _ _ _) =>
      apply framed_writeDraginoRegister
  | |- keeps_framed (bind _ _) => apply framed_bind; [|intros ?]
  | |- keeps_framed (if ?c then _ else _) => destruct c
  | |- keeps_framed (match ?c with _ => _ end) => destruct c
  end.

Lemma framed_receivePkt_loop e n i : keeps_framed (receivePkt_loop e n i).
Proof.
  revert i. induction n as [|n IH]; intros i; cbn [receivePkt_loop].
  - framed_step.
  - apply framed_bind; [framed_step|intros c].
    apply framed_bind; [|intros _; apply IH].
    unfold store_payload. repeat framed_step.
Qed.

Lemma framed_dumpMessage msg len : keeps_framed (dumpMessage msg len).
Proof.
  unfold dumpMessage. generalize 0 as r.
  induction (Z.to_nat len) as [|n IH]; intros r; cbn [dumpMessage_loop].
  - framed_step.
  - apply framed_bind; [framed_step|intros _; apply IH].
Qed.

Ltac framed_call :=
  lazymatch goal with
  | |- keeps_framed (receivePkt_loop _ _ _) => apply framed_receivePkt_loop
  | |- keeps_framed (dumpMessage _ _) => apply framed_dumpMessage
  | |- _ => framed_step
  end.

Lemma framed_receivePkt e : keeps_framed (receivePkt e).
Proof. unfold receivePkt. repeat framed_call. Qed.

Lemma framed_compose_rxpk e corr : keeps_framed (compose_rxpk e corr).
Proof.
  unfold compose_rxpk, rand, gettimeofday. cbv zeta. repeat framed_call.
Qed.

Lemma framed_receiveDraginoPacket e : keeps_framed (receiveDraginoPacket e).
Proof.
  unfold receiveDraginoPacket, digitalRead. cbv zeta.
  repeat lazymatch goal with
         | |- keeps_framed (receivePkt _) => apply framed_receivePkt
         | |- keeps_framed (compose_rxpk _ _) => apply framed_compose_rxpk
         | |- _ => framed_call
         end.
Qed.

Lemma framed_sendstat e : keeps_framed (sendstat e).
Proof.
  unfold sendstat, status_store, rand, time. cbv zeta. repeat framed_call.
Qed.

Lemma framed_setupDraginoLoRa h e a m c p :
  keeps_framed (setupDraginoLoRa h e a m c p).
Proof.
  unfold setupDraginoLoRa, wiringPiSetup, pinMode, wiringPiSPISetup,
    digitalWrite, delay.
  cbv zeta. repeat framed_call.
Qed.

Lemma framed_draginoMain_round e lasttime :
  keeps_framed (draginoMain_round e lasttime).
Proof.
  unfold draginoMain_round, gettimeofday, delay. cbv zeta.
  repeat lazymatch goal with
         | |- keeps_framed (receiveDraginoPacket _) =>
             apply framed_receiveDraginoPacket
         | |- keeps_framed (sendstat _) => apply framed_sendstat
         | |- _ => framed_call
         end.
Qed.

Lemma framed_draginoMain_loop e n lasttime :
  keeps_framed (draginoMain_loop e n lasttime).
Proof.
  revert lasttime. induction n as [|n IH]; intros lasttime;
    cbn [draginoMain_loop].
  - framed_step.
  - apply framed_bind; [apply framed_draginoMain_round|intros lt; apply IH].
Qed.

(** *** The polls, the set-up and the main loop, end to end *)

Lemma poll_total e s :
  255 <= Z.of_nat (length (lora_packet s)) ->
  exists r s1,
    receiveDraginoPacket e s = Some (r, s1)
    /\ length (lora_packet s1) = length (lora_packet s)
    /\ status_report s1 = status_report s
    /\ cp_up_pkt_fwd s1 = cp_up_pkt_fwd s
    /\ stat_frames (trace s1) = stat_frames (trace s).
Proof.
  intros Hcap.
  assert (Hrun : exists r s1,
             receiveDraginoPacket e s = Some (r, s1)
             /\ length (lora_packet s1) = length (lora_packet s)).
  { destruct (Z.eq_dec (gpio_level e (dio_n s)) 1) as [Hdio|Hdio].
    - destruct (Z.testbit (miso_byte e (S (spi_n s))) 5) eqn:Hcrc.
      + destruct (crc_error_run e s Hdio Hcrc) as (s' & E & _ & _ & P & _).
        exists 1, s'. split; [exact E|]. now rewrite P.
      + destruct (accepted_poll_run e s Hdio Hcrc Hcap)
          as (s' & E & _ & _ & P & _).
        exists 0, s'. split; [exact E|]. cbv zeta in P. rewrite P.
        rewrite length_app, length_map, length_seq, length_skipn.
        pose proof (miso_byte_range e (3 + spi_n s)). lia.
    - eexists _, _. split; [apply (idle_poll_run e s Hdio)|].
      destruct s; reflexivity. }
  destruct Hrun as (r & s1 & E & L).
  destruct (keeps_receiveDraginoPacket e _ _ _ E) as (F & S & T).
  exists r, s1. repeat split; assumption.
Qed.

Lemma round_run e lasttime s :
  255 <= Z.of_nat (length (lora_packet s)) ->
  Z.of_nat (length (status_report s)) = STATUS_SIZE ->
  exists r1 s1 lasttime' s',
    receiveDraginoPacket e s = Some (r1, s1)
    /\ draginoMain_round e lasttime s = Some (lasttime', s')
    /\ length (lora_packet s') = length (lora_packet s)
    /\ Z.of_nat (length (status_report s')) = STATUS_SIZE
    /\ let now := to_uint32 (clock_sec e (clock_n s1)) in
       if 30 <=? to_uint32 (now - lasttime) then
         lasttime' = now
         /\ cp_nb_rx_rcv s' = 0 /\ cp_nb_rx_ok s' = 0 /\ cp_up_pkt_fwd s' = 0
         /\ stat_frames (trace s')
            = stat_json (strftime_24 e (clock_sec e (S (clock_n s1)))) alt
                (cp_nb_rx_rcv s1) (cp_nb_rx_ok s1) (cp_up_pkt_fwd s1)
              :: stat_frames (trace s)
       else
         lasttime' = lasttime
         /\ cp_nb_rx_rcv s' = cp_nb_rx_rcv s1
         /\ cp_nb_rx_ok s' = cp_nb_rx_ok s1
         /\ cp_up_pkt_fwd s' = cp_up_pkt_fwd s1
         /\ stat_frames (trace s') = stat_frames (trace s).
Proof.
  intros Hcap Hlen.
  destruct (poll_total e s Hcap) as (r1 & s1 & E1 & L1 & S1 & _ & T1).
  exists r1, s1. unfold draginoMain_round, bind at 1. rewrite E1.
  rewrite <- L1, <- T1. rewrite <- S1 in Hlen. clear E1 L1 S1 T1.
  destruct s1 as [sx rb rcv ok fwd tm sf0 fq hw pkt snr pl sr sn dn rn cn tr].
  cbn [status_report lora_packet trace clock_n cp_nb_rx_rcv cp_nb_rx_ok
       cp_up_pkt_fwd] in *.
  exec.
  destruct (30 <=? to_uint32 (to_uint32 (clock_sec e cn) - lasttime)).
  - match goal with |- context [sendstat e ?s1] =>
      destruct (sendstat_run e s1 Hlen) as (R & Es & HR)
    end.
    match type of Es with _ = Some (_, after_sendstat _ ?s1 _) =>
      assert (Hbuf : Z.of_nat (length ((compose_header e s1 ++ stat_text e s1)
                                        ++ 0 :: R)) = STATUS_SIZE)
        by (rewrite !length_app; unfold compose_header, frame_header,
              STATUS_SIZE; cbn [length]; lia)
    end.
    rewrite Es. unfold after_sendstat, stat_text. exec.
    eexists _, _. split; [reflexivity|]. split; [reflexivity|].
    exec. split; [reflexivity|]. split; [exact Hbuf|].
    repeat (split; [reflexivity|]).
    unfold stat_frames. observe. reflexivity.
  - eexists _, _. split; [reflexivity|]. split; [reflexivity|].
    exec. split; [reflexivity|]. split; [exact Hlen|].
    repeat (split; [reflexivity|]).
    unfold stat_frames. observe. reflexivity.
Qed.

(** X2.  A poll that finds the DIO0 line at any level other than 1
    returns 1 and does nothing but that one read of the line: no SPI
    transfer, no counter, no buffer and no output changes. *)
Theorem idle_poll_touches_nothing e s :
  gpio_level e (dio_n s) <> 1 ->
  receiveDraginoPacket e s
  = Some (1, set_trace (EvDigitalRead dio0 (gpio_level e (dio_n s)) :: trace s)
               (set_dio_n (S (dio_n s)) s)).
Proof. apply idle_poll_run. Qed.

Lemma idle_poll_touches_nothing_witness :
  gpio_level (steady_env 3 0 40) (dio_n sample_state) <> 1
  /\ receiveDraginoPacket (steady_env 3 0 40) sample_state
     = Some (1, set_trace
                  (EvDigitalRead dio0
                     (gpio_level (steady_env 3 0 40) (dio_n sample_state))
                   :: trace sample_state)
                  (set_dio_n (S (dio_n sample_state)) sample_state)).
Proof.
  split; [vm_compute; discriminate|].
  apply (idle_poll_touches_nothing (steady_env 3 0 40) sample_state).
  vm_compute; discriminate.
Defined.

(** X3.  A poll that finds DIO0 asserted and the CRC-error bit set in
    the IRQ flags returns 1 after exactly three register accesses: the
    write of 0x40 to the IRQ flags, the read of the flags and the write
    of 0x20 that clears the CRC error, with the text of line 238 printed
    between the last two.  The packet buffer, the byte count and the SNR
    keep their values. *)
Theorem crc_error_poll e s :
  gpio_level e (dio_n s) = 1 ->
  Z.testbit (miso_byte e (S (spi_n s))) 5 = true ->
  exists s',
    receiveDraginoPacket e s = Some (1, s')
    /\ trace s'
       = write_events e REG_IRQ_FLAGS 0x20 (2 + spi_n s)
         ++ [EvPrintf MsgCrcError]
         ++ read_events e REG_IRQ_FLAGS (1 + spi_n s)
         ++ write_events e REG_IRQ_FLAGS 0x40 (spi_n s)
         ++ [EvDigitalRead dio0 1]
         ++ trace s
    /\ register_writes (trace s')
       = register_writes (trace s)
         ++ [(REG_IRQ_FLAGS, 0x40); (REG_IRQ_FLAGS, 0x20)]
    /\ lora_packet s' = lora_packet s
    /\ receivedbytes s' = receivedbytes s
    /\ lora_snr s' = lora_snr s.
Proof.
  intros Hdio Hcrc.
  destruct (crc_error_run e s Hdio Hcrc)
    as (s' & E & T & W & P & B & N & _).
  exists s'. repeat split; assumption.
Qed.

Lemma crc_error_poll_witness :
  gpio_level (steady_env 0x20 1 40) (dio_n sample_state) = 1
  /\ Z.testbit (miso_byte (steady_env 0x20 1 40) (S (spi_n sample_state))) 5
     = true
  /\ exists s',
       receiveDraginoPacket (steady_env 0x20 1 40) sample_state = Some (1, s')
       /\ trace s'
          = write_events (steady_env 0x20 1 40) REG_IRQ_FLAGS 0x20
              (2 + spi_n sample_state)
            ++ [EvPrintf MsgCrcError]
            ++ read_events (steady_env 0x20 1 40) REG_IRQ_FLAGS
                 (1 + spi_n sample_state)
            ++ write_events (steady_env 0x20 1 40) REG_IRQ_FLAGS 0x40
                 (spi_n sample_state)
            ++ [EvDigitalRead dio0 1]
            ++ trace sample_state
       /\ register_writes (trace s')
          = register_writes (trace sample_state)
            ++ [(REG_IRQ_FLAGS, 0x40); (REG_IRQ_FLAGS, 0x20)]
       /\ lora_packet s' = lora_packet sample_state
       /\ receivedbytes s' = receivedbytes sample_state
       /\ lora_snr s' = lora_snr sample_state.
Proof.
  split; [reflexivity|]. split; [reflexivity|].
  apply (crc_error_poll (steady_env 0x20 1 40) sample_state); reflexivity.
Defined.





(** X6.  Every poll returns 0 or 1, and it returns 0 exactly when
    DIO0 was asserted and the CRC-error bit of the IRQ flags was clear,
    that is, when a frame was accepted (line 614); an idle poll and a
    CRC error both return 1 (line 617). *)
Theorem poll_return_value e s :
  255 <= Z.of_nat (length (lora_packet s)) ->
  exists r s',
    receiveDraginoPacket e s = Some (r, s')
    /\ (r = 0 \/ r = 1)
    /\ (r = 0 <->
        gpio_level e (dio_n s) = 1
        /\ Z.testbit (miso_byte e (S (spi_n s))) 5 = false).
Proof.
  intros Hcap.
  destruct (Z.eq_dec (gpio_level e (dio_n s)) 1) as [Hdio|Hdio].
  - destruct (Z.testbit (miso_byte e (S (spi_n s))) 5) eqn:Hcrc.
    + destruct (crc_error_run e s Hdio Hcrc) as (s' & E & _).
      exists 1, s'. split; [exact E|]. split; [now right|].
      split; [discriminate|]. intros [_ C]. discriminate.
    + destruct (accepted_poll_run e s Hdio Hcrc Hcap) as (s' & E & _).
      exists 0, s'. split; [exact E|]. split; [now left|].
      split; auto.
  - eexists _, _. split; [apply (idle_poll_run e s Hdio)|].
    split; [now right|]. split; [discriminate|]. intros [C _]. contradiction.
Qed.

Lemma poll_return_value_witness :
  255 <= Z.of_nat (length (lora_packet sample_state))
  /\ exists r s',
       receiveDraginoPacket (steady_env 3 1 40) sample_state = Some (r, s')
       /\ (r = 0 \/ r = 1)
       /\ (r = 0 <->
           gpio_level (steady_env 3 1 40) (dio_n sample_state) = 1
           /\ Z.testbit
                (miso_byte (steady_env 3 1 40) (S (spi_n sample_state))) 5
              = false).
Proof.
  split; [vm_compute; discriminate|].
  apply (poll_return_value (steady_env 3 1 40) sample_state).
  vm_compute. discriminate.
Defined.



(** X8.  The fifth register written by a successful set-up is the one
    that carries the low-data-rate flag of the detected chip (bit 0 of
    REG_MODEM_CONFIG on the SX1272, bit 3 of REG_MODEM_CONFIG3 on the
    SX1276), and the flag is set exactly when the spreading factor is
    SF11 or SF12. *)
Theorem low_data_rate_flag h e address mode channel power s :
  let k := spi_n s in
  let v1 := miso_byte e k in
  let v2 := miso_byte e (S k) in
  (v1 =? 0x22) || (v2 =? 0x12) = true ->
  exists s' front value rest,
    setupDraginoLoRa h e address mode channel power s = Some (0, s')
    /\ register_writes (trace s')
       = register_writes (trace s)
         ++ front
         ++ (if v1 =? 0x22 then REG_MODEM_CONFIG else REG_MODEM_CONFIG3, value)
            :: rest
    /\ length front = 4%nat
    /\ Z.testbit value (if v1 =? 0x22 then 0 else 3)
       = (sf s =? SF11) || (sf s =? SF12).
Proof.
  cbv zeta. intros Hdet.
  destruct (setup_writes_run h e address mode channel power s Hdet)
    as (s' & E & _ & _ & W).
  exists s'. unfold config_writes in W.
  destruct (miso_byte e (spi_n s) =? 34);
    destruct ((sf s =? SF11) || (sf s =? SF12));
    (eexists [_; _; _; _], _, _;
     split; [exact E|]; split; [rewrite W; reflexivity|];
     split; reflexivity).
Qed.

Lemma low_data_rate_flag_witness :
  let h := rfm96_regs in
  let e := steady_env 0x22 0 1 in
  let s := sample_state in
  let k := spi_n s in
  let v1 := miso_byte e k in
  let v2 := miso_byte e (S k) in
  (v1 =? 0x22) || (v2 =? 0x12) = true
  /\ exists s' front value rest,
       setupDraginoLoRa h e 2 1 0 "H" s = Some (0, s')
       /\ register_writes (trace s')
          = register_writes (trace s)
            ++ front
            ++ (if v1 =? 0x22 then REG_MODEM_CONFIG else REG_MODEM_CONFIG3,
                value)
               :: rest
       /\ length front = 4%nat
       /\ Z.testbit value (if v1 =? 0x22 then 0 else 3)
          = (sf s =? SF11) || (sf s =? SF12).
Proof.
  cbv zeta. split; [reflexivity|].
  apply (low_data_rate_flag rfm96_regs (steady_env 0x22 0 1) 2 1 0 "H"
           sample_state).
  reflexivity.
Defined.

(** X9.  One round of the main loop polls once and then reads the
    clock.  When, in 32-bit unsigned arithmetic, at least 30 seconds have
    passed since [lasttime], the round takes the new time as [lasttime],
    emits one status frame that reports the counters as the poll left
    them, and resets the three counters to 0; otherwise it emits no
    status frame and leaves [lasttime] and the counters as the poll left
    them. *)
Theorem status_interval e lasttime s :
  255 <= Z.of_nat (length (lora_packet s)) ->
  Z.of_nat (length (status_report s)) = STATUS_SIZE ->
  exists r1 s1 lasttime' s',
    receiveDraginoPacket e s = Some (r1, s1)
    /\ draginoMain_round e lasttime s = Some (lasttime', s')
    /\ let now := to_uint32 (clock_sec e (clock_n s1)) in
       if 30 <=? to_uint32 (now - lasttime) then
         lasttime' = now
         /\ cp_nb_rx_rcv s' = 0 /\ cp_nb_rx_ok s' = 0 /\ cp_up_pkt_fwd s' = 0
         /\ stat_frames (trace s')
            = stat_json (strftime_24 e (clock_sec e (S (clock_n s1)))) alt
                (cp_nb_rx_rcv s1) (cp_nb_rx_ok s1) (cp_up_pkt_fwd s1)
              :: stat_frames (trace s)
       else
         lasttime' = lasttime
         /\ cp_nb_rx_rcv s' = cp_nb_rx_rcv s1
         /\ cp_nb_rx_ok s' = cp_nb_rx_ok s1
         /\ cp_up_pkt_fwd s' = cp_up_pkt_fwd s1
         /\ stat_frames (trace s') = stat_frames (trace s).
Proof.
  intros Hcap Hlen.
  destruct (round_run e lasttime s Hcap Hlen)
    as (r1 & s1 & lt' & s' & E1 & E & _ & _ & H).
  exists r1, s1, lt', s'. repeat split; assumption.
Qed.

Lemma status_interval_witness :
  255 <= Z.of_nat (length (lora_packet sample_state))
  /\ Z.of_nat (length (status_report sample_state)) = STATUS_SIZE
  /\ exists r1 s1 lasttime' s',
       receiveDraginoPacket (steady_env 3 1 40) sample_state = Some (r1, s1)
       /\ draginoMain_round (steady_env 3 1 40) 1700000000 sample_state
          = Some (lasttime', s')
       /\ let now :=
            to_uint32 (clock_sec (steady_env 3 1 40) (clock_n s1)) in
          if 30 <=? to_uint32 (now - 1700000000) then
            lasttime' = now
            /\ cp_nb_rx_rcv s' = 0 /\ cp_nb_rx_ok s' = 0
            /\ cp_up_pkt_fwd s' = 0
            /\ stat_frames (trace s')
               = stat_json
                   (strftime_24 (steady_env 3 1 40)
                      (clock_sec (steady_env 3 1 40) (S (clock_n s1))))
                   alt (cp_nb_rx_rcv s1) (cp_nb_rx_ok s1) (cp_up_pkt_fwd s1)
                 :: stat_frames (trace sample_state)
          else
            lasttime' = 1700000000
            /\ cp_nb_rx_rcv s' = cp_nb_rx_rcv s1
            /\ cp_nb_rx_ok s' = cp_nb_rx_ok s1
            /\ cp_up_pkt_fwd s' = cp_up_pkt_fwd s1
            /\ stat_frames (trace s') = stat_frames (trace sample_state).
Proof.
  split; [vm_compute; discriminate|]. split; [reflexivity|].
  apply (status_interval (steady_env 3 1 40) 1700000000 sample_state).
  - vm_compute. discriminate.
  - reflexivity.
Defined.

Lemma draginoMain_loop_run e n lasttime s :
  255 <= Z.of_nat (length (lora_packet s)) ->
  Z.of_nat (length (status_report s)) = STATUS_SIZE ->
  exists lasttime' s',
    draginoMain_loop e n lasttime s = Some (lasttime', s')
    /\ length (lora_packet s') = length (lora_packet s)
    /\ length (status_report s') = length (status_report s).
Proof.
  revert lasttime s. induction n as [|n IH]; intros lasttime s Hcap Hlen.
  - exists lasttime, s. repeat split.
  - destruct (round_run e lasttime s Hcap Hlen)
      as (r1 & s1 & lt1 & s2 & _ & E & L & S & _).
    destruct (IH lt1 s2) as (lt' & s' & E' & L' & S'); [lia|assumption|].
    exists lt', s'. cbn [draginoMain_loop]. unfold bind. rewrite E.
    split; [exact E'|]. split; [congruence|].
    apply Nat2Z.inj. rewrite S'. congruence.
Qed.

(** X10.  Any number of rounds of the main loop runs to completion
    without a store outside a buffer, and leaves both buffers at their
    sizes, provided the packet buffer holds the 255 bytes that the byte
    count of the chip can announce and the status buffer has its declared
    size. *)
Theorem main_loop_never_stuck e n lasttime s :
  255 <= Z.of_nat (length (lora_packet s)) ->
  Z.of_nat (length (status_report s)) = STATUS_SIZE ->
  exists lasttime' s',
    draginoMain_loop e n lasttime s = Some (lasttime', s')
    /\ length (lora_packet s') = length (lora_packet s)
    /\ length (status_report s') = length (status_report s).
Proof. apply draginoMain_loop_run. Qed.

Lemma main_loop_never_stuck_witness :
  255 <= Z.of_nat (length (lora_packet sample_state))
  /\ Z.of_nat (length (status_report sample_state)) = STATUS_SIZE
  /\ exists lasttime' s',
       draginoMain_loop (steady_env 0xA3 1 7) 12 0 sample_state
       = Some (lasttime', s')
       /\ length (lora_packet s') = length (lora_packet sample_state)
       /\ length (status_report s') = length (status_report sample_state).
Proof.
  split; [vm_compute; discriminate|]. split; [reflexivity|].
  apply (main_loop_never_stuck (steady_env 0xA3 1 7) 12 0 sample_state).
  - vm_compute. discriminate.
  - reflexivity.
Defined.

Lemma receivePkt_loop_overflow e n i s :
  0 <= i <= Z.of_nat (length (lora_packet s)) ->
  Z.of_nat (length (lora_packet s)) < i + Z.of_nat n ->
  receivePkt_loop e n i s = None.
Proof.
  revert i s. induction n as [|n IH]; intros i s Hi Hover.
  - exfalso. lia.
  - destruct s as [sx rb rcv ok fwd tm sf0 fq hw pkt snr pl sr sn dn rn cn tr].
    cbn [lora_packet spi_n trace] in *.
    cbn [receivePkt_loop]. exec.
    unfold poke, pokes. cbn [length].
    destruct (Z.eq_dec i (Z.of_nat (length pkt))) as [Hfull|Hroom].
    + replace ((0 <=? i) && (i + Z.of_nat 1 <=? Z.of_nat (length pkt)))
        with false
        by (symmetry; apply andb_false_iff; right; apply Z.leb_gt; lia).
      reflexivity.
    + replace ((0 <=? i) && (i + Z.of_nat 1 <=? Z.of_nat (length pkt)))
        with true
        by (symmetry; apply andb_true_iff; split; apply Z.leb_le; lia).
      exec. apply IH.
      * cbn [lora_packet]. rewrite !length_app, length_firstn, length_skipn.
        cbn [length]. lia.
      * cbn [lora_packet]. rewrite !length_app, length_firstn, length_skipn.
        cbn [length]. lia.
Qed.

(** X11.  [receivePkt] copies as many bytes as the chip reports,
    without a check against the size of the buffer it is given (lines
    251-254): when the reported count exceeds the size of [lora_packet],
    the copy stores outside the array, so the behaviour of the poll is
    undefined. *)
Theorem oversized_frame_is_undefined e s :
  gpio_level e (dio_n s) = 1 ->
  Z.testbit (miso_byte e (S (spi_n s))) 5 = false ->
  Z.of_nat (length (lora_packet s)) < miso_byte e (3 + spi_n s) ->
  receivePkt e s = None /\ receiveDraginoPacket e s = None.
Proof.
  destruct s as [sx rb rcv ok fwd tm sf0 fq hw pkt snr pl sr sn dn rn cn tr].
  cbn [dio_n spi_n lora_packet].
  intros Hdio Hcrc Hover.
  unfold miso_byte in *. cbn [Nat.add] in Hover.
  split.
  - unfold receivePkt. exec.
    rewrite crc_flag_bit by apply to_uint8_range. rewrite Hcrc. exec.
    rewrite receivePkt_loop_overflow; [reflexivity| |];
      cbn [lora_packet]; lia.
  - unfold receiveDraginoPacket. exec. rewrite Hdio.
    change (1 =? 1) with true. exec.
    unfold receivePkt. exec.
    rewrite crc_flag_bit by apply to_uint8_range. rewrite Hcrc. exec.
    rewrite receivePkt_loop_overflow; [reflexivity| |];
      cbn [lora_packet]; lia.
Qed.

Lemma oversized_frame_is_undefined_witness :
  let e := steady_env 0x40 1 40 in
  let s := initial_state sample_hwaddr (repeat 0 16%nat) in
  gpio_level e (dio_n s) = 1
  /\ Z.testbit (miso_byte e (S (spi_n s))) 5 = false
  /\ Z.of_nat (length (lora_packet s)) < miso_byte e (3 + spi_n s)
  /\ receivePkt e s = None /\ receiveDraginoPacket e s = None.
Proof.
  cbv zeta. split; [reflexivity|]. split; [reflexivity|].
  split; [reflexivity|].
  apply (oversized_frame_is_undefined (steady_env 0x40 1 40)
           (initial_state sample_hwaddr (repeat 0 16%nat)));
    reflexivity.
Defined.

Lemma setup_total h e address mode channel power s :
  exists r s', setupDraginoLoRa h e address mode channel power s = Some (r, s').
Proof.
  destruct s as [sx rb rcv ok fwd tm sf0 fq hw pkt snr pl sr sn dn rn cn tr].
  unfold setupDraginoLoRa. exec.
  destruct (to_uint8 (spi_miso e sn) =? 34) eqn:E1; exec.
  - destruct ((sf0 =? SF11) || (sf0 =? SF12));
    destruct ((sf0 =? SF10) || (sf0 =? SF11) || (sf0 =? SF12));
    destruct (mode =? 1); exec;
    (eexists; eexists; reflexivity).
  - destruct (to_uint8 (spi_miso e (S sn)) =? 18) eqn:E2; exec.
    + destruct ((sf0 =? SF11) || (sf0 =? SF12));
      destruct ((sf0 =? SF10) || (sf0 =? SF11) || (sf0 =? SF12));
      destruct (mode =? 1); exec;
      (eexists; eexists; reflexivity).
    + eexists; eexists; reflexivity.
Qed.

(** X12.  The set-up and any number of rounds of the main loop run to
    completion with the chip-select discipline intact: in the trace, each
    SPI transfer stands between a LOW and a HIGH write to the chip-select
    pin, and the pin is written at no other time. *)
Theorem chip_select_frames_every_transfer h e address mode channel power n
    lasttime s :
  bus_framed (trace s) = true ->
  255 <= Z.of_nat (length (lora_packet s)) ->
  Z.of_nat (length (status_report s)) = STATUS_SIZE ->
  (exists r s',
     setupDraginoLoRa h e address mode channel power s = Some (r, s')
     /\ bus_framed (trace s') = true)
  /\ (exists lasttime' s',
        draginoMain_loop e n lasttime s = Some (lasttime', s')
        /\ bus_framed (trace s') = true).
Proof.
  intros H Hcap Hlen. split.
  - destruct (setup_total h e address mode channel power s) as (r & s' & E).
    exists r, s'. split; [exact E|].
    eapply framed_setupDraginoLoRa; eauto.
  - destruct (draginoMain_loop_run e n lasttime s Hcap Hlen)
      as (lt & s' & E & _).
    exists lt, s'. split; [exact E|].
    eapply framed_draginoMain_loop; eauto.
Qed.

Lemma chip_select_frames_every_transfer_witness :
  bus_framed (trace sample_state) = true
  /\ 255 <= Z.of_nat (length (lora_packet sample_state))
  /\ Z.of_nat (length (status_report sample_state)) = STATUS_SIZE
  /\ (exists r s',
        setupDraginoLoRa rfm96_regs (steady_env 0x12 1 7) 2 1 0 "H"
          sample_state = Some (r, s')
        /\ bus_framed (trace s') = true)
  /\ (exists lasttime' s',
        draginoMain_loop (steady_env 0x12 1 7) 9 0 sample_state
        = Some (lasttime', s')
        /\ bus_framed (trace s') = true).
Proof.
  split; [reflexivity|]. split; [vm_compute; discriminate|].
  split; [reflexivity|].
  apply (chip_select_frames_every_transfer rfm96_regs (steady_env 0x12 1 7)
           2 1 0 "H" 9 0 sample_state).
  - reflexivity.
  - vm_compute. discriminate.
  - reflexivity.
Defined.

Lemma address_bits a :
  Z.land (to_uint8 a) 0x7F = a mod 128
  /\ Z.lor (to_uint8 a) 0x80 = 128 + a mod 128.
Proof.
  pose proof (byte_cases
                (fun b => (Z.land b 0x7F =? b mod 128)
                          && (Z.lor b 0x80 =? 128 + b mod 128))) as H.
  assert (Hb : is_byte (to_uint8 a)) by apply to_uint8_range.
  specialize (H ltac:(vm_compute; reflexivity) (to_uint8 a) Hb).
  apply andb_true_iff in H. destruct H as [H1 H2].
  apply Z.eqb_eq in H1, H2. rewrite H1, H2.
  assert (E : to_uint8 a mod 128 = a mod 128).
  { unfold to_uint8. change (2 ^ 8) with 256.
    Z.div_mod_to_equations. lia. }
  rewrite E. split; reflexivity.
Qed.

(** X13.  A register read sends the address with bit 7 clear and a
    zero byte, and returns the second byte of the transfer; a register
    write sends the address with bit 7 set and the value cut to 8 bits.
    Only seven address bits reach the chip: the address is taken modulo
    128.  Each access is one transfer between LOW and HIGH on the
    chip-select pin. *)
Theorem register_wire_format e addr value s :
  exists s1 s2,
    readDraginoRegister e addr s = Some (miso_byte e (spi_n s), s1)
    /\ trace s1
       = [EvDigitalWrite ssPin HIGH;
          EvSPIDataRW CHANNEL (addr mod 128) 0 (miso_byte e (spi_n s));
          EvDigitalWrite ssPin LOW] ++ trace s
    /\ register_writes (trace s1) = register_writes (trace s)
    /\ spi_n s1 = S (spi_n s)
    /\ writeDraginoRegister e addr value s = Some (tt, s2)
    /\ trace s2
       = [EvDigitalWrite ssPin HIGH;
          EvSPIDataRW CHANNEL (128 + addr mod 128) (value mod 256)
            (miso_byte e (spi_n s));
          EvDigitalWrite ssPin LOW] ++ trace s
    /\ register_writes (trace s2)
       = register_writes (trace s) ++ [(addr mod 128, value mod 256)]
    /\ spi_n s2 = S (spi_n s).
Proof.
  destruct s as [sx rb rcv ok fwd tm sf0 fq hw pkt snr pl sr sn dn rn cn tr].
  destruct (address_bits addr) as [Hr Hw].
  unfold readDraginoRegister, writeDraginoRegister. exec.
  eexists. eexists.
  split; [reflexivity|]. exec.
  split; [rewrite Hr; reflexivity|].
  split.
  { unfold register_writes. observe. reflexivity. }
  split; [reflexivity|].
  split; [reflexivity|]. exec.
  split; [rewrite Hw; reflexivity|].
  split; [|reflexivity].
  unfold register_writes. observe.
  rewrite land_lor_128, Hr. reflexivity.
Qed.

(** X14.  For a spreading factor from 7 to 12 the [datr] prefix of the
    uplink text is the literal followed by that number in decimal, for
    any other value it is [SF?]; in every case the length given to
    [memcpy] is the length of the literal. *)
Theorem datr_names_spreading_factor sf :
  (if (7 <=? sf) && (sf <=? 12)
   then lit (fst (datr_literal sf)) = lit ",'datr':'SF" ++ fmt_u sf
   else fst (datr_literal sf) = ",'datr':'SF?")
  /\ snd (datr_literal sf) = Z.of_nat (length (lit (fst (datr_literal sf)))).
Proof.
  destruct ((7 <=? sf) && (sf <=? 12)) eqn:R.
  - apply andb_true_iff in R. destruct R as [R1 R2].
    apply Z.leb_le in R1, R2.
    assert (C : sf = 7 \/ sf = 8 \/ sf = 9 \/ sf = 10 \/ sf = 11 \/ sf = 12)
      by lia.
    destruct C as [->|[->|[->|[->|[->| ->]]]]]; split; reflexivity.
  - unfold datr_literal, SF7, SF8, SF9, SF10, SF11, SF12.
    assert (N : sf < 7 \/ 12 < sf).
    { apply andb_false_iff in R. destruct R as [R|R]; apply Z.leb_gt in R; lia. }
    repeat match goal with
           | |- context [sf =? ?c] =>
               replace (sf =? c) with false by (symmetry; apply Z.eqb_neq; lia)
           end.
    split; reflexivity.
Qed.

(** X15.  Both encoders start their datagram with the protocol
    version, two token bytes that are two consecutive values of [rand()]
    cut to 8 bits, and the push-data type, and consume exactly two random
    values; the uplink composition returns the index 12 plus the length
    of the text, where the buffer holds the terminator. *)
Theorem header_tokens e corr s :
  Z.of_nat (length (status_report s)) = STATUS_SIZE ->
  let token_h := to_uint8 (rand_value e (rand_n s)) in
  let token_l := to_uint8 (rand_value e (S (rand_n s))) in
  exists buff_up buff_index s1 s2,
    compose_rxpk e corr s = Some (buff_up, buff_index, s1)
    /\ firstn 4 buff_up = [PROTOCOL_VERSION; token_h; token_l; PKT_PUSH_DATA]
    /\ buff_index = 12 + Z.of_nat (length (compose_json e corr s))
    /\ nth (Z.to_nat buff_index) buff_up 1 = 0
    /\ rand_n s1 = S (S (rand_n s))
    /\ sendstat e s = Some (tt, s2)
    /\ firstn 4 (status_report s2)
       = [PROTOCOL_VERSION; token_h; token_l; PKT_PUSH_DATA]
    /\ rand_n s2 = S (S (rand_n s)).
Proof.
  intros Hlen. cbv zeta.
  destruct (compose_rxpk_run e corr s) as (R & E & HR).
  destruct (sendstat_run e s Hlen) as (R2 & E2 & HR2).
  exists ((compose_header e s ++ compose_json e corr s) ++ 0 :: R),
         (12 + Z.of_nat (length (compose_json e corr s))),
         (after_compose e s), (after_sendstat e s R2).
  split; [exact E|].
  split; [reflexivity|].
  split; [reflexivity|].
  split.
  { replace (Z.to_nat (12 + Z.of_nat (length (compose_json e corr s))))
      with (length (compose_header e s ++ compose_json e corr s) + 0)%nat
      by (rewrite length_app; unfold compose_header, frame_header;
          cbn [length]; lia).
    rewrite app_nth2_plus. reflexivity. }
  split; [destruct s; reflexivity|].
  split; [exact E2|].
  split; destruct s; reflexivity.
Qed.

Lemma header_tokens_witness :
  let e := steady_env 3 1 40 in
  let s := sample_state in
  Z.of_nat (length (status_report s)) = STATUS_SIZE
  /\ let token_h := to_uint8 (rand_value e (rand_n s)) in
     let token_l := to_uint8 (rand_value e (S (rand_n s))) in
     exists buff_up buff_index s1 s2,
       compose_rxpk e 157 s = Some (buff_up, buff_index, s1)
       /\ firstn 4 buff_up
          = [PROTOCOL_VERSION; token_h; token_l; PKT_PUSH_DATA]
       /\ buff_index = 12 + Z.of_nat (length (compose_json e 157 s))
       /\ nth (Z.to_nat buff_index) buff_up 1 = 0
       /\ rand_n s1 = S (S (rand_n s))
       /\ sendstat e s = Some (tt, s2)
       /\ firstn 4 (status_report s2)
          = [PROTOCOL_VERSION; token_h; token_l; PKT_PUSH_DATA]
       /\ rand_n s2 = S (S (rand_n s)).
Proof.
  cbv zeta. split; [reflexivity|].
  apply (header_tokens (steady_env 3 1 40) 157 sample_state).
  reflexivity.
Defined.
